(** * Verification-gated cleanup and health-check aggregation

    A shallow embedding of [SAFE_CLEANUP_VERIFICATION_SYSTEM.py] and
    [TEST_ORCHESTRATION_SYSTEM.py].

    Python text is a [string] (its UTF-8 bytes), a Python [int] is a [Z], a
    [dict] is an association list in insertion order, and a statement
    sequence is a computation in the state-and-exception monad [Py]: the
    state is the outside world (file system, processes, clock) together with
    the lines the program has printed so far.  What the interpreter and the
    operating system do is an interface ([Interp], [OS]); a small scripted
    machine at the end of the definitions implements it, so that every
    function of the embedding can be run. *)

From Stdlib Require Import ZArith QArith String Ascii DecimalString List Lia Lqa.
From Stdlib Require Import Floats.
From stdpp Require Import base list strings.

Open Scope Z_scope.

(** ** Python values that the programs handle *)

(** The ways a [TypeError] arises in the code under study. *)
Inductive type_error :=
| NotIterable            (* for x in 5 *)
| NotSubscriptable       (* None['k'] *)
| BadIndex               (* 'abc'['k'], [1, 2]['k'] *)
| JoinItem (i : nat).    (* ', '.join([.., 5, ..]) : item i is not a str *)

(** Instances of Python's [Exception] class.  [KeyboardInterrupt] and
    [SystemExit] derive from [BaseException] only and are not modelled. *)
Inductive exn :=
| TimeoutExpired (cmd : list string) (timeout : nat)
| CalledProcessError (cmd : list string) (returncode : Z)
| KeyError (key : string)
| TypeError (t : type_error)
| JSONDecodeError (msg : string)
| OSError (msg : string)
| OtherException (cls msg : string).

(** A binary64 float, as far as the code looks at one. *)
Inductive pyfloat :=
| FNan
| FInf (negative : bool)
| FFin (q : Q).

(** A number that is an [int] on one path and a [float] on another. *)
Inductive pynum :=
| PyInt (n : Z)
| PyFloat (x : Q).

(** What [json.loads] builds and [json.dump] writes.  A [JDict] lists its
    items in insertion order with distinct keys. *)
#[local] Unset Elimination Schemes.
Inductive json :=
| JNull
| JBool (b : bool)
| JInt (n : Z)
| JFloat (x : pyfloat)
| JStr (s : string)
| JList (l : list json)
| JDict (d : list (string * json)).
#[local] Set Elimination Schemes.

(** [subprocess.CompletedProcess] *)
Record CompletedProcess := Completed {
  returncode : Z;
  stdout : string;
  stderr : string
}.

(** ** Dictionaries in insertion order *)

Abbreviation dict V := (list (string * V)).

Section Dict.
Context {V : Type}.

Fixpoint dict_get (k : string) (d : dict V) : option V :=
  match d with
  | [] => None
  | (k', v) :: d' => if String.eqb k k' then Some v else dict_get k d'
  end.

(** [d[k] = v]: an existing key keeps its place and takes the new value,
    a new key goes to the end. *)
Fixpoint dict_set (k : string) (v : V) (d : dict V) : dict V :=
  match d with
  | [] => [(k, v)]
  | (k', v') :: d' =>
      if String.eqb k k' then (k', v) :: d' else (k', v') :: dict_set k v d'
  end.

Definition dict_keys (d : dict V) : list string := map fst d.
End Dict.

(** ** Operations of the interpreter on JSON values *)

(** [bool(v)] *)
Definition truthy (v : json) : bool :=
  match v with
  | JNull => false
  | JBool b => b
  | JInt n => negb (n =? 0)
  | JFloat (FFin q) => negb (Qeq_bool q 0)
  | JFloat _ => true
  | JStr s => negb (String.eqb s "")
  | JList l => match l with [] => false | _ => true end
  | JDict d => match d with [] => false | _ => true end
  end.

(** [for x in v]: a list yields its items, a dict its keys, a str its
    characters. *)
Definition py_iter (v : json) : exn + list json :=
  match v with
  | JList l => inr l
  | JDict d => inr (map (fun kv => JStr (fst kv)) d)
  | JStr s => inr (map (fun c => JStr (String c "")) (list_ascii_of_string s))
  | _ => inl (TypeError NotIterable)
  end.

(** [v[k]] for a str [k] *)
Definition py_getitem (v : json) (k : string) : exn + json :=
  match v with
  | JDict d =>
      match dict_get k d with
      | Some x => inr x
      | None => inl (KeyError k)
      end
  | JList _ | JStr _ => inl (TypeError BadIndex)
  | _ => inl (TypeError NotSubscriptable)
  end.

(** [sep.join(items)] *)
Fixpoint py_join_from (i : nat) (sep : string) (items : list json)
  : exn + string :=
  match items with
  | [] => inr ""
  | JStr s :: rest =>
      match rest with
      | [] => inr s
      | _ =>
          match py_join_from (S i) sep rest with
          | inr t => inr (s +:+ sep +:+ t)
          | inl e => inl e
          end
      end
  | _ :: _ => inl (TypeError (JoinItem i))
  end.

Definition py_join (sep : string) (items : list json) : exn + string :=
  py_join_from 0 sep items.

(** [[repo['repository']['name'] for repo in data]] *)
Fixpoint repository_names_of (items : list json) : exn + list json :=
  match items with
  | [] => inr []
  | repo :: rest =>
      match py_getitem repo "repository" with
      | inl e => inl e
      | inr r =>
          match py_getitem r "name" with
          | inl e => inl e
          | inr n =>
              match repository_names_of rest with
              | inl e => inl e
              | inr ns => inr (n :: ns)
              end
          end
      end
  end.

Definition repository_names (data : json) : exn + list json :=
  match py_iter data with
  | inl e => inl e
  | inr items => repository_names_of items
  end.

(** ** Paths *)

Definition is_absolute (p : string) : bool :=
  match p with
  | String c _ => Ascii.eqb c "/"
  | EmptyString => false
  end.

Fixpoint ends_with_slash (p : string) : bool :=
  match p with
  | EmptyString => false
  | String c EmptyString => Ascii.eqb c "/"
  | String _ rest => ends_with_slash rest
  end.

(** ** The interpreter and the operating system *)

(** Library functions whose result the source does not fix. *)
Class Interp := {
  json_loads : string -> exn + json;      (* json.loads *)
  str_exn : exn -> string;                (* str(e) *)
  str_strip : string -> string;           (* s.strip() *)
  format_1f : pynum -> string             (* f"{x:.1f}" *)
}.

(** Binary64 arithmetic: an operation on floats returns [fl] of the exact
    result.  [fl] rounds to the nearest float; it keeps the order and leaves
    alone every [m / 2^e] whose [m] fits the 53-bit significand. *)
Class Binary64 := {
  fl : Q -> Q;
  fl_proper : forall a b, (a == b)%Q -> (fl a == fl b)%Q;
  fl_monotone : forall a b, (a <= b)%Q -> (fl a <= fl b)%Q;
  fl_representable : forall m e,
    Z.abs m <= 2 ^ 53 -> 0 <= e <= 1074 ->
    (fl (inject_Z m / inject_Z (2 ^ e)) == inject_Z m / inject_Z (2 ^ e))%Q
}.

(** What the process can do to the world [W] and see of it. *)
Class OS (W : Type) := {
  (* subprocess.run(argv, timeout=t): the child has run when this returns *)
  subprocess_run : list string -> option nat -> W -> (exn + CompletedProcess) * W;
  os_path_exists : string -> W -> bool;
  os_chdir : string -> W -> (exn + unit) * W;
  os_getcwd : W -> string;
  (* with open(path, 'w') as f: json.dump(v, f, indent=2) *)
  dump_json : string -> json -> W -> (exn + unit) * W;
  (* datetime.now().isoformat() *)
  now_isoformat : W -> string
}.

(** Facts of POSIX that the claims about the working directory and about
    [cp] rest on. *)
Class Posix (W : Type) `{OS W} : Prop := {
  (* a successful chdir to an absolute path makes it the working directory *)
  chdir_absolute : forall p w w',
    os_chdir p w = (inr tt, w') -> is_absolute p = true -> os_getcwd w' = p;
  (* a cp that exits with 0 has written its target *)
  cp_creates : forall src dst t w r w',
    subprocess_run ["cp"; src; dst] t w = (inr r, w') ->
    returncode r = 0 -> os_path_exists dst w' = true;
  (* without -r, cp omits a directory and exits with an error; a source
     written with a trailing slash resolves to a directory or to nothing *)
  cp_omits_directory : forall src dst t w r w',
    subprocess_run ["cp"; src; dst] t w = (inr r, w') ->
    ends_with_slash src = true -> returncode r <> 0
}.

(** Reading a directory, for the probes that do. *)
Class Listing (W : Type) := {
  (* os.listdir(path) *)
  os_listdir : string -> W -> (exn + list string) * W
}.

(** ** More of the interpreter *)

(** [s.split('\n')] *)
Fixpoint split_lines (s : string) : list string :=
  match s with
  | EmptyString => [""]
  | String c rest =>
      if Ascii.eqb c "010" then "" :: split_lines rest
      else
        match split_lines rest with
        | line :: lines => String c line :: lines
        | [] => [String c ""]
        end
  end.

(** [len(v) > 0]; a value without a length raises a [TypeError]. *)
Definition py_nonempty (v : json) : exn + bool :=
  match v with
  | JList l => inr (0 <? Z.of_nat (length l))
  | JDict d => inr (0 <? Z.of_nat (length d))
  | JStr s => inr (negb (String.eqb s ""))
  | _ => inl (OtherException "TypeError" "object has no len()")
  end.

(** [repr] of a list of names that hold no quote, no backslash and no
    control character, which is how the names printed below are. *)
Definition repr_names (names : list string) : string :=
  "[" +:+ String.concat ", " (map (fun n => "'" +:+ n +:+ "'") names) +:+ "]".

(** ** The monad of Python statements *)

Record state (W : Type) := State {
  world : W;
  console : list string          (* lines printed, oldest first *)
}.
Arguments State {W}.
Arguments world {W}.
Arguments console {W}.

Definition Py (W A : Type) : Type := state W -> (exn + A) * state W.

Definition ret {W A} (a : A) : Py W A := fun s => (inr a, s).

Definition raise {W A} (e : exn) : Py W A := fun s => (inl e, s).

Definition bind {W A B} (m : Py W A) (k : A -> Py W B) : Py W B :=
  fun s =>
    match m s with
    | (inr a, s') => k a s'
    | (inl e, s') => (inl e, s')
    end.

Notation "x <~ m ;; k" := (bind m (fun x => k))
  (at level 100, m at next level, right associativity).
Notation "m ;;; k" := (bind m (fun _ => k))
  (at level 100, right associativity).

(** [try: m  except Exception as e: h e] *)
Definition try_except {W A} (m : Py W A) (h : exn -> Py W A) : Py W A :=
  fun s =>
    match m s with
    | (inr a, s') => (inr a, s')
    | (inl e, s') => h e s'
    end.

(** A pure step that may raise. *)
Definition lift {W A} (r : exn + A) : Py W A := fun s => (r, s).

(** A step on the world alone. *)
Definition on_world {W A} (f : W -> (exn + A) * W) : Py W A :=
  fun s =>
    let '(r, w') := f (world s) in
    (r, State w' (console s)).

(** [print(line)].  The console is taken to hold every line, so [print]
    never raises here; on a stream whose encoding lacks a character of the
    line Python's [print] raises [UnicodeEncodeError].  What is proved of a
    call that returns is proved for consoles that take its lines. *)
Definition print {W} (line : string) : Py W unit :=
  fun s => (inr tt, State (world s) (console s ++ [line])).

(** [for x in l: body x], with the loop's variables in [acc]. *)
Fixpoint for_each {W A S} (l : list A) (body : A -> S -> Py W S) (acc : S)
  : Py W S :=
  match l with
  | [] => ret acc
  | x :: rest => acc' <~ body x acc ;; for_each rest body acc'
  end.

Section Processes.
Context {W : Type} `{OS W}.

Definition run (argv : list string) (timeout : option nat)
  : Py W CompletedProcess :=
  on_world (subprocess_run argv timeout).

(** [subprocess.run(argv, check=True)] *)
Definition run_checked (argv : list string) : Py W CompletedProcess :=
  r <~ run argv None ;;
  if returncode r =? 0 then ret r
  else raise (CalledProcessError argv (returncode r)).

Definition path_exists (p : string) : Py W bool :=
  fun s => (inr (os_path_exists p (world s)), s).

Definition chdir (p : string) : Py W unit := on_world (os_chdir p).
End Processes.

(** ** SAFE_CLEANUP_VERIFICATION_SYSTEM.py *)

Module SafeCleanupVerifier.

(** The object's fields, as [__init__] sets them. *)
Record t := Build {
  github_org : string;
  verification_log : list json
}.

Definition __init__ : t :=
  {| github_org := "Worldwidebro"; verification_log := [] |}.

(** The dictionary that [safe_cleanup_with_verification] returns. *)
Record report := Report {
  total_files : Z;
  safe_to_delete : Z;
  unsafe_to_delete : Z;
  safe_files : list (string * string);
  unsafe_files : list (string * string);
  verification_timestamp : string
}.

(** The report as [json.dump] sees it: a tuple is written as a list. *)
Definition json_of_pairs (l : list (string * string)) : json :=
  JList (map (fun p => JList [JStr (fst p); JStr (snd p)]) l).

Definition json_of_report (r : report) : json :=
  JDict [ ("total_files", JInt (total_files r));
          ("safe_to_delete", JInt (safe_to_delete r));
          ("unsafe_to_delete", JInt (unsafe_to_delete r));
          ("safe_files", json_of_pairs (safe_files r));
          ("unsafe_files", json_of_pairs (unsafe_files r));
          ("verification_timestamp", JStr (verification_timestamp r)) ].

Definition len {A} (l : list A) : Z := Z.of_nat (length l).

Definition project_root : string := "/Users/divinejohns/memU".

Section Methods.
Context {W : Type} `{OS W} `{Interp}.

Definition search_command (self : t) (filename : string) : list string :=
  ["gh"; "search"; "code"; "filename:" +:+ filename;
   "--owner"; github_org self; "--json"; "repository"].

(** The [try] block of [verify_file_in_github]. *)
Definition search (self : t) (filename : string) : Py W (bool * string) :=
  result <~ run (search_command self filename) (Some 30%nat) ;;
  if returncode result =? 0 then
    data <~ lift (json_loads (stdout result)) ;;
    if truthy data then
      repos <~ lift (repository_names data) ;;
      joined <~ lift (py_join ", " repos) ;;
      ret (true, "Found in repositories: " +:+ joined)
    else
      ret (false, "File not found in any GitHub repository")
  else
    ret (false, "Search failed: " +:+ stderr result).

(** The two [except] clauses of [verify_file_in_github]. *)
Definition search_failed (e : exn) : bool * string :=
  match e with
  | TimeoutExpired _ _ => (false, "Search timed out")
  | _ => (false, "Error searching: " +:+ str_exn e)
  end.

Definition verify_file_in_github (self : t) (filename : string)
  : Py W (bool * string) :=
  try_except (search self filename) (fun e => ret (search_failed e)).

(** One turn of the loop of [verify_multiple_files]. *)
Definition verify_step (self : t) (filename : string)
    (results : dict (bool * string)) : Py W (dict (bool * string)) :=
  print ("Verifying " +:+ filename +:+ "...") ;;;
  r <~ verify_file_in_github self filename ;;
  ret (dict_set filename r results).

Definition verify_multiple_files (self : t) (filenames : list string)
  : Py W (dict (bool * string)) :=
  for_each filenames (verify_step self) [].

(** One turn of the loop that sorts the results into the two lists; [acc]
    holds [(safe_to_delete, unsafe_to_delete)]. *)
Definition categorize_step (item : string * (bool * string))
    (acc : list (string * string) * list (string * string))
  : Py W (list (string * string) * list (string * string)) :=
  let '(filename, (exists_, message)) := item in
  if exists_ : bool then
    print ("✅ SAFE: " +:+ filename +:+ " - " +:+ message) ;;;
    ret ((fst acc ++ [(filename, message)])%list, snd acc)
  else
    print ("❌ UNSAFE: " +:+ filename +:+ " - " +:+ message) ;;;
    ret (fst acc, (snd acc ++ [(filename, message)])%list).

Definition categorize (results : dict (bool * string))
  : Py W (list (string * string) * list (string * string)) :=
  for_each results categorize_step ([], []).

(** [str(n)] for the counts that are printed; their digits do not
    matter to any property below. *)
Definition str_int (n : Z) : string :=
  match n with
  | Z0 => "0"
  | Zpos p => NilEmpty.string_of_uint (Pos.to_uint p)
  | Zneg p => "-" +:+ NilEmpty.string_of_uint (Pos.to_uint p)
  end.

Definition safe_cleanup_with_verification (self : t)
    (files_to_cleanup : list string) : Py W report :=
  print "=== SAFE CLEANUP WITH GITHUB VERIFICATION ===" ;;;
  print ("Verifying " +:+ str_int (len files_to_cleanup) +:+ " files...") ;;;
  verification_results <~ verify_multiple_files self files_to_cleanup ;;
  buckets <~ categorize verification_results ;;
  let safe := fst buckets in
  let unsafe := snd buckets in
  date <~ run ["date"] None ;;
  let report :=
    {| total_files := len files_to_cleanup;
       safe_to_delete := len safe;
       unsafe_to_delete := len unsafe;
       safe_files := safe;
       unsafe_files := unsafe;
       verification_timestamp := str_strip (stdout date) |} in
  on_world (dump_json "cleanup_verification_log.json" (json_of_report report)) ;;;
  print (String "010" "=== VERIFICATION COMPLETE ===") ;;;
  print ("Total files: " +:+ str_int (total_files report)) ;;;
  print ("Safe to delete: " +:+ str_int (safe_to_delete report)) ;;;
  print ("Unsafe to delete: " +:+ str_int (unsafe_to_delete report)) ;;;
  ret report.

Definition backup_locations (filename : string) : list string :=
  [ "backups/" +:+ filename;
    "backup/" +:+ filename;
    ".git/objects/";
    "__pycache__/" +:+ filename;
    "temp/" +:+ filename ].

(** The [for location in backup_locations] loop, with its early
    [return True] and the [continue] of the bare [except]. *)
Fixpoint restore_scan (filename : string) (locations : list string)
  : Py W bool :=
  match locations with
  | [] =>
      print ("❌ Could not restore " +:+ filename
             +:+ " from any backup location") ;;;
      ret false
  | location :: rest =>
      present <~ path_exists location ;;
      if present : bool then
        try_except
          (run_checked ["cp"; location; filename] ;;;
           print ("✅ Restored " +:+ filename +:+ " from " +:+ location) ;;;
           ret true)
          (fun _ => restore_scan filename rest)
      else restore_scan filename rest
  end.

Definition restore_file_from_backup (self : t) (filename : string)
  : Py W bool :=
  restore_scan filename (backup_locations filename).

Definition clone_dir (target_repo : string) : string :=
  "temp_repos/" +:+ target_repo.

(** The [try] block of [commit_file_to_github]. *)
Definition publish (self : t) (filename target_repo : string) : Py W bool :=
  cloned <~ path_exists (clone_dir target_repo) ;;
  (if cloned : bool then ret tt
   else
     run_checked ["mkdir"; "-p"; "temp_repos"] ;;;
     run_checked ["gh"; "repo"; "clone";
                  github_org self +:+ "/" +:+ target_repo;
                  clone_dir target_repo] ;;;
     ret tt) ;;;
  run_checked ["cp"; filename; clone_dir target_repo +:+ "/"] ;;;
  chdir (clone_dir target_repo) ;;;
  run_checked ["git"; "add"; filename] ;;;
  run_checked ["git"; "commit"; "-m";
               "Add " +:+ filename +:+ " - orchestration system"] ;;;
  run_checked ["git"; "push"] ;;;
  chdir project_root ;;;
  print ("✅ Committed " +:+ filename +:+ " to " +:+ target_repo) ;;;
  ret true.

Definition commit_file_to_github (self : t) (filename target_repo : string)
  : Py W bool :=
  try_except (publish self filename target_repo)
    (fun e =>
       print ("❌ Failed to commit " +:+ filename +:+ " to " +:+ target_repo
              +:+ ": " +:+ str_exn e) ;;;
       chdir project_root ;;;
       ret false).

(** [get_repository_contents]; its bare [except] takes every exception. *)
Definition get_repository_contents (self : t) (repo_name : string)
  : Py W (list string) :=
  try_except
    (result <~ run ["gh"; "api";
                    "repos/" +:+ github_org self +:+ "/" +:+ repo_name
                    +:+ "/contents";
                    "--jq"; ".[].name"] (Some 15%nat) ;;
     if returncode result =? 0 then
       if negb (String.eqb (str_strip (stdout result)) "")
       then ret (split_lines (str_strip (stdout result)))
       else ret []
     else ret [])
    (fun _ => ret []).

Definition deleted_files : list string :=
  [ "BILLIONAIRE_CONSCIOUSNESS_ORCHESTRATION_COMPLETE.py";
    "SESSION_AWARE_ORCHESTRATION_SYSTEM.py";
    "COMPLETE_ORCHESTRATION_INTEGRATION.py";
    "PROMPTING_ORCHESTRATION_SYSTEM.md";
    "TEST_ORCHESTRATION_SYSTEM.py";
    "FINAL_TEST_RESULTS.md" ].

Definition test_files : list string := ["README.md"; "package.json"].

(** [main]: two verification passes whose results are dropped. *)
Definition main : Py W unit :=
  let verifier := __init__ in
  print "=== SAFE CLEANUP VERIFICATION SYSTEM ===" ;;;
  print "This system prevents accidental deletion of uncommitted files" ;;;
  print (String "010" "=== TESTING VERIFICATION SYSTEM ===") ;;;
  verify_multiple_files verifier test_files ;;;
  print (String "010" "=== CHECKING DELETED FILES ===") ;;;
  verify_multiple_files verifier deleted_files ;;;
  ret tt.
End Methods.

End SafeCleanupVerifier.


(** ** TEST_ORCHESTRATION_SYSTEM.py *)

Module OrchestrationSystemTester.

(** The object's fields, as [__init__] sets them. *)
Record t := Build {
  test_results : dict bool;
  total_tests : Z;
  passed_tests : Z;
  failed_tests : Z
}.

Definition __init__ : t :=
  {| test_results := []; total_tests := 0; passed_tests := 0;
     failed_tests := 0 |}.

(** The dictionary that [run_comprehensive_tests] returns. *)
Record report := Report {
  timestamp : string;
  r_total_tests : Z;
  r_passed_tests : Z;
  r_failed_tests : Z;
  success_rate : pynum;
  r_test_results : dict bool;
  system_status : string
}.

Definition json_of_pynum (x : pynum) : json :=
  match x with
  | PyInt n => JInt n
  | PyFloat q => JFloat (FFin q)
  end.

Definition json_of_report (r : report) : json :=
  JDict [ ("timestamp", JStr (timestamp r));
          ("total_tests", JInt (r_total_tests r));
          ("passed_tests", JInt (r_passed_tests r));
          ("failed_tests", JInt (r_failed_tests r));
          ("success_rate", json_of_pynum (success_rate r));
          ("test_results",
           JDict (map (fun kv => (fst kv, JBool (snd kv))) (r_test_results r)));
          ("system_status", JStr (system_status r)) ].

Definition str_int (n : Z) : string :=
  match n with
  | Z0 => "0"
  | Zpos p => NilEmpty.string_of_uint (Pos.to_uint p)
  | Zneg p => "-" +:+ NilEmpty.string_of_uint (Pos.to_uint p)
  end.

(** ["=" * 60] *)
Definition rule : string := String.concat "" (repeat "=" 60).

Section Methods.
Context {W : Type} `{OS W} `{Interp} `{Binary64}.

(** A probe: a method without arguments that returns a truth value or
    raises.  Whatever a probe does, its own printing included, is a change
    of the world; [console] keeps the lines of the aggregator alone. *)
Definition probe := W -> (exn + bool) * W.

Definition run_test (self : t) (test_name : string) (test_function : probe)
  : Py W (t * bool) :=
  let self :=
    {| test_results := test_results self;
       total_tests := total_tests self + 1;
       passed_tests := passed_tests self;
       failed_tests := failed_tests self |} in
  print ("🧪 Running test: " +:+ test_name) ;;;
  try_except
    (result <~ on_world test_function ;;
     if result : bool then
       let self :=
         {| test_results := test_results self;
            total_tests := total_tests self;
            passed_tests := passed_tests self + 1;
            failed_tests := failed_tests self |} in
       print ("✅ PASSED: " +:+ test_name) ;;;
       ret (self, true)
     else
       let self :=
         {| test_results := test_results self;
            total_tests := total_tests self;
            passed_tests := passed_tests self;
            failed_tests := failed_tests self + 1 |} in
       print ("❌ FAILED: " +:+ test_name) ;;;
       ret (self, false))
    (fun e =>
       let self :=
         {| test_results := test_results self;
            total_tests := total_tests self;
            passed_tests := passed_tests self;
            failed_tests := failed_tests self + 1 |} in
       print ("❌ ERROR in " +:+ test_name +:+ ": " +:+ str_exn e) ;;;
       ret (self, false)).

(** [(passed / total * 100) if total > 0 else 0] *)
Definition success_rate_of (passed total : Z) : pynum :=
  if total >? 0
  then PyFloat (fl (fl (inject_Z passed / inject_Z total) * 100))
  else PyInt 0.

(** The same quotient on the machine's binary64 floats, for counts that a
    float holds exactly. *)
Definition success_rate_binary64 (passed total : Z) : float :=
  (PrimFloat.of_uint63 (Uint63.of_Z passed)
   / PrimFloat.of_uint63 (Uint63.of_Z total) * 100)%float.

(** One turn of the loop over the suite; [acc] holds [self] and the local
    [test_results]. *)
Definition suite_step (test : string * probe) (acc : t * dict bool)
  : Py W (t * dict bool) :=
  r <~ run_test (fst acc) (fst test) (snd test) ;;
  ret (fst r, dict_set (fst test) (snd r) (snd acc)).

Definition run_suite (tests : list (string * probe)) (self : t)
  : Py W (t * dict bool) :=
  for_each tests suite_step (self, []).

(** The lines under "FAILED TESTS". *)
Definition print_failed (results : dict bool) : Py W unit :=
  for_each results
    (fun item (_ : unit) =>
       if snd item : bool then ret tt else print ("  - " +:+ fst item))
    tt.

(** [run_comprehensive_tests], for the suite [tests]; in the source the
    suite is the fixed list of the eleven [test_*] methods.  The result
    carries [self] as the call leaves it. *)
Definition run_comprehensive_tests (tests : list (string * probe)) (self : t)
  : Py W (t * report) :=
  print "🧪 COMPREHENSIVE ORCHESTRATION SYSTEM TESTING" ;;;
  print rule ;;;
  ran <~ run_suite tests self ;;
  let self := fst ran in
  let test_results := snd ran in
  now <~ (fun s => (inr (now_isoformat (world s)), s)) ;;
  let report :=
    {| timestamp := now;
       r_total_tests := total_tests self;
       r_passed_tests := passed_tests self;
       r_failed_tests := failed_tests self;
       success_rate := success_rate_of (passed_tests self) (total_tests self);
       r_test_results := test_results;
       system_status :=
         if failed_tests self =? 0 then "healthy" else "issues_detected" |} in
  on_world (dump_json "orchestration_test_report.json" (json_of_report report)) ;;;
  print (String "010" rule) ;;;
  print "📊 TEST RESULTS SUMMARY" ;;;
  print rule ;;;
  print ("Total Tests: " +:+ str_int (total_tests self)) ;;;
  print ("Passed: " +:+ str_int (passed_tests self)) ;;;
  print ("Failed: " +:+ str_int (failed_tests self)) ;;;
  print ("Success Rate: " +:+ format_1f (success_rate report) +:+ "%") ;;;
  print ("System Status: " +:+ system_status report) ;;;
  (if failed_tests self >? 0 then
     print (String "010" "❌ FAILED TESTS:") ;;;
     print_failed test_results
   else ret tt) ;;;
  print (String "010" "📋 Detailed report saved to: orchestration_test_report.json") ;;;
  ret (self, report).

(** [main], for the suite [tests]: the status that it hands to
    [sys.exit].  An exception of [run_comprehensive_tests] leaves [main]
    as it is. *)
Definition main (tests : list (string * probe)) : Py W Z :=
  let tester := __init__ in
  ran <~ run_comprehensive_tests tests tester ;;
  let tester := fst ran in
  if failed_tests tester =? 0 then
    print (String "010" "🎯 ALL TESTS PASSED! System is fully operational.") ;;;
    ret 0
  else
    print (String "010" "⚠️ " +:+ str_int (failed_tests tester)
           +:+ " tests failed. Please review and fix issues.") ;;;
    ret 1.
End Methods.

Section Probes.
Context {W : Type} `{OS W} `{Listing W} `{Interp}.

Definition listdir (p : string) : Py W (list string) :=
  on_world (os_listdir p).

Definition test_github_connectivity (self : t) : Py W bool :=
  try_except
    (result <~ run ["gh"; "auth"; "status"] (Some 10%nat) ;;
     if returncode result =? 0 then ret true
     else
       print ("GitHub auth error: " +:+ stderr result) ;;;
       ret false)
    (fun e =>
       match e with
       | TimeoutExpired _ _ =>
           print "GitHub connectivity timeout" ;;; ret false
       | _ =>
           print ("GitHub connectivity error: " +:+ str_exn e) ;;; ret false
       end).

Definition test_repository_verification (self : t) : Py W bool :=
  try_except
    (result <~ run ["gh"; "repo"; "list"; "Worldwidebro"; "--limit"; "10";
                    "--json"; "name"] (Some 30%nat) ;;
     if returncode result =? 0 then
       repos <~ lift (json_loads (stdout result)) ;;
       lift (py_nonempty repos)
     else
       print ("Repository verification error: " +:+ stderr result) ;;;
       ret false)
    (fun e =>
       match e with
       | TimeoutExpired _ _ =>
           print "Repository verification timeout" ;;; ret false
       | _ =>
           print ("Repository verification error: " +:+ str_exn e) ;;;
           ret false
       end).

Definition test_cursor_rules (self : t) : Py W bool :=
  try_except
    (let cursor_rules_dir := ".cursor/rules" in
     present <~ path_exists cursor_rules_dir ;;
     if present : bool then
       rules_files <~ listdir cursor_rules_dir ;;
       ret (0 <? Z.of_nat (length rules_files))
     else
       print "Cursor rules directory not found" ;;;
       ret false)
    (fun e => print ("Cursor rules error: " +:+ str_exn e) ;;; ret false).

Definition essential_files : list string :=
  [ "BILLIONAIRE_CONSCIOUSNESS_ORCHESTRATION_COMPLETE.py";
    "SESSION_AWARE_ORCHESTRATION_SYSTEM.py";
    "COMPLETE_ORCHESTRATION_INTEGRATION.py";
    "PROMPTING_ORCHESTRATION_SYSTEM.md";
    "SAFE_CLEANUP_VERIFICATION_SYSTEM.py" ].

(** One turn of the loop that collects the missing files. *)
Definition missing_step (file : string) (missing_files : list string)
  : Py W (list string) :=
  present <~ path_exists file ;;
  if present : bool then ret missing_files
  else ret (missing_files ++ [file])%list.

Definition test_file_structure (self : t) : Py W bool :=
  try_except
    (missing_files <~ for_each essential_files missing_step [] ;;
     match missing_files with
     | _ :: _ =>
         print ("Missing files: " +:+ repr_names missing_files) ;;;
         ret false
     | [] => ret true
     end)
    (fun e => print ("File structure error: " +:+ str_exn e) ;;; ret false).

Definition test_system_health (self : t) : Py W bool :=
  try_except
    (result <~ run ["df"; "-h"; "."] None ;;
     if negb (returncode result =? 0) then
       print "Disk space check failed" ;;;
       ret false
     else
       result <~ run ["ping"; "-c"; "1"; "github.com"] (Some 5%nat) ;;
       if negb (returncode result =? 0) then
         print "Network connectivity check failed" ;;;
         ret false
       else ret true)
    (fun e => print ("System health error: " +:+ str_exn e) ;;; ret false).
End Probes.

(** The names of the suite in [run_comprehensive_tests], in its order. *)
Definition suite_names : list string :=
  [ "File Structure"; "Cursor Rules"; "System Health";
    "GitHub Connectivity"; "Repository Verification";
    "Orchestrator Import"; "Session System Import";
    "Integration System Import"; "Orchestrator Functionality";
    "Session Management"; "Integration System" ].

End OrchestrationSystemTester.


(** ** A scripted machine

    One implementation of [Interp], [OS] and [Binary64], small enough to run
    inside Rocq: a working directory, the paths that exist, the replies that
    successive [gh search code] calls receive, and switches that make
    [git push] or the writing of a report fail. *)

Module Machine.

Record world := World {
  cwd : string;
  directories : list string;                 (* where chdir can go *)
  paths : list string;                       (* what os.path.exists finds *)
  searches : list (exn + CompletedProcess);  (* replies to gh search, in order *)
  push_ok : bool;
  disk_ok : bool;
  written : list (string * json)             (* reports on disk, latest first *)
}.

Definition mem (p : string) (l : list string) : bool :=
  existsb (String.eqb p) l.

Definition ok : CompletedProcess := Completed 0 "" "".

Definition failed (code : Z) (why : string) : CompletedProcess :=
  Completed code "" why.

Definition with_paths (w : world) (ps : list string) : world :=
  {| cwd := cwd w; directories := directories w; paths := ps;
     searches := searches w; push_ok := push_ok w; disk_ok := disk_ok w;
     written := written w |}.

Definition with_searches (w : world) (rs : list (exn + CompletedProcess))
  : world :=
  {| cwd := cwd w; directories := directories w; paths := paths w;
     searches := rs; push_ok := push_ok w; disk_ok := disk_ok w;
     written := written w |}.

Definition with_cwd (w : world) (d : string) : world :=
  {| cwd := d; directories := directories w; paths := paths w;
     searches := searches w; push_ok := push_ok w; disk_ok := disk_ok w;
     written := written w |}.

Definition with_written (w : world) (path : string) (v : json) : world :=
  {| cwd := cwd w; directories := directories w;
     paths := path :: paths w;
     searches := searches w; push_ok := push_ok w; disk_ok := disk_ok w;
     written := (path, v) :: written w |}.

(** [cp src dst] without [-r]: a source that is missing or is a directory
    is an error, otherwise the target exists afterwards. *)
Definition cp (src dst : string) (w : world) : CompletedProcess * world :=
  if ends_with_slash src || negb (mem src (paths w))
  then (failed 1 ("cp: cannot copy " +:+ src), w)
  else (ok, with_paths w (dst :: paths w)).

Definition machine_run (argv : list string) (timeout : option nat) (w : world)
  : (exn + CompletedProcess) * world :=
  match argv with
  | [] => (inl (OSError "empty command"), w)
  | prog :: args =>
      if String.eqb prog "cp" then
        match args with
        | [src; dst] => let '(r, w') := cp src dst w in (inr r, w')
        | _ => (inr (failed 64 "usage: cp source target"), w)
        end
      else if String.eqb prog "gh" && mem "search" args then
        match searches w with
        | reply :: rest => (reply, with_searches w rest)
        | [] => (inl (TimeoutExpired argv (default 0%nat timeout)), w)
        end
      else if String.eqb prog "git" && mem "push" args then
        (inr (if push_ok w then ok else failed 1 "push rejected"), w)
      else if String.eqb prog "date" then
        (inr (Completed 0 (String.append "Tue Nov  3 20:09:00 UTC 2026"
                                         (String "010" "")) ""), w)
      else (inr ok, w)
  end.

Definition machine_chdir (p : string) (w : world) : (exn + unit) * world :=
  if mem p (directories w)
  then (inr tt, with_cwd w (if is_absolute p then p else cwd w +:+ "/" +:+ p))
  else (inl (OSError ("No such file or directory: " +:+ p)), w).

Definition machine_dump (path : string) (v : json) (w : world)
  : (exn + unit) * world :=
  if disk_ok w then (inr tt, with_written w path v)
  else (inl (OSError "No space left on device"), w).

#[global] Instance machine_os : OS world := {|
  subprocess_run := machine_run;
  os_path_exists := fun p w => mem p (paths w);
  os_chdir := machine_chdir;
  os_getcwd := cwd;
  dump_json := machine_dump;
  now_isoformat := fun _ => "2026-11-03T20:09:00"
|}.

(** The double quote, for writing JSON text. *)
Definition dq : string := String "034" "".

(** What [gh search code --json repository] prints for one hit in the
    repository [name]. *)
Definition one_hit (name : string) : string :=
  "[{" +:+ dq +:+ "repository" +:+ dq +:+ ":{" +:+ dq +:+ "name" +:+ dq +:+ ":"
  +:+ dq +:+ name +:+ dq +:+ "}}]".

(** [json.loads] on the texts that the scripted searches print: no hit, or
    one hit in [core]; every other text is taken as unparseable. *)
Definition machine_loads (text : string) : exn + json :=
  if String.eqb text "[]" then inr (JList [])
  else if String.eqb text (one_hit "core")
  then inr (JList [JDict [("repository", JDict [("name", JStr "core")])]])
  else inl (JSONDecodeError "Expecting value").

Definition machine_str_exn (e : exn) : string :=
  match e with
  | TimeoutExpired _ _ => "Command timed out"
  | CalledProcessError _ _ => "Command returned non-zero exit status"
  | KeyError k => "'" +:+ k +:+ "'"
  | TypeError _ => "unsupported operand"
  | JSONDecodeError m => m
  | OSError m => m
  | OtherException _ m => m
  end.

Definition is_space (c : ascii) : bool :=
  let n := nat_of_ascii c in
  (n =? 32)%nat || ((9 <=? n)%nat && (n <=? 13)%nat).

Fixpoint lstrip (s : string) : string :=
  match s with
  | String c rest => if is_space c then lstrip rest else s
  | EmptyString => s
  end.

Fixpoint rstrip (s : string) : string :=
  match s with
  | String c rest =>
      match rstrip rest with
      | EmptyString => if is_space c then "" else String c ""
      | kept => String c kept
      end
  | EmptyString => s
  end.

(** [f"{x:.1f}"], truncating where Python rounds. *)
Definition machine_format_1f (x : pynum) : string :=
  match x with
  | PyInt n => OrchestrationSystemTester.str_int n +:+ ".0"
  | PyFloat q =>
      let tenths := (Qnum q * 10) / Zpos (Qden q) in
      OrchestrationSystemTester.str_int (tenths / 10) +:+ "."
      +:+ OrchestrationSystemTester.str_int (tenths mod 10)
  end.

#[global] Instance machine_interp : Interp := {|
  json_loads := machine_loads;
  str_exn := machine_str_exn;
  str_strip := fun s => rstrip (lstrip s);
  format_1f := machine_format_1f
|}.

(** Arithmetic without rounding error meets the laws of [Binary64]. *)
#[global] Instance exact_arithmetic : Binary64 := {|
  fl := fun q => q;
  fl_proper := fun a b E => E;
  fl_monotone := fun a b L => L;
  fl_representable := fun m e _ _ => Qeq_refl _
|}.

(** A fresh process in [dir] that has printed nothing. *)
Definition boot (w : world) : state world := State w [].

(** A checkout in [/home/dev/project] with nothing on disk, a network that
    answers, and no scripted search. *)
Definition quiet : world :=
  {| cwd := "/home/dev/project";
     directories := ["/home/dev/project"; "/Users/divinejohns/memU"];
     paths := []; searches := []; push_ok := true; disk_ok := true;
     written := [] |}.

(** Replies of [gh search code]: one hit in [core], and no hit. *)
Definition hit : exn + CompletedProcess := inr (Completed 0 (one_hit "core") "").

Definition no_hit : exn + CompletedProcess := inr (Completed 0 "[]" "").

(** A fresh process on [quiet] whose searches receive [replies]. *)
Definition searching (replies : list (exn + CompletedProcess)) : state world :=
  boot (with_searches quiet replies).

(** A checkout in [dir] that holds [a.py] and a clone of [core]; [push]
    tells whether [git push] goes through. *)
Definition checkout (dir : string) (push : bool) : world :=
  {| cwd := dir;
     directories := [dir; "/Users/divinejohns/memU"; "temp_repos/core"];
     paths := ["a.py"; "temp_repos/core"];
     searches := []; push_ok := push; disk_ok := true; written := [] |}.

(** [os.listdir]: the paths found directly under [p], by their names. *)
Definition entries_under (p : string) (w : world) : list string :=
  let prefix := p +:+ "/" in
  let n := String.length prefix in
  List.filter
    (fun name => negb (String.eqb name "")
                 && negb (existsb (Ascii.eqb "/") (list_ascii_of_string name)))
    (map (fun q => String.substring n (String.length q - n) q)
       (List.filter (String.prefix prefix) (paths w))).

#[global] Instance machine_listing : Listing world := {|
  os_listdir := fun p w =>
    if mem p (paths w) then (inr (entries_under p w), w)
    else (inl (OSError ("No such file or directory: " +:+ p)), w)
|}.


(** Probes: one that passes, one that fails, one that raises. *)
Definition passes : world -> (exn + bool) * world := fun w => (inr true, w).

Definition refuses : world -> (exn + bool) * world := fun w => (inr false, w).

Definition crashes : world -> (exn + bool) * world :=
  fun w => (inl (OSError "boom"), w).

End Machine.


(** ** Vocabulary of the specification *)

(** The entry of a search reply that names the owning repository [name]. *)
Definition names_repository (entry : json) (name : string) : Prop :=
  exists d r,
    entry = JDict d /\ dict_get "repository" d = Some (JDict r)
    /\ dict_get "name" r = Some (JStr name).

(** The query succeeded and reported the owning repositories [names], at
    least one of them. *)
Definition reports_repositories `{Interp} (reply : exn + CompletedProcess)
    (names : list string) : Prop :=
  names <> [] /\
  exists r entries,
    reply = inr r /\ returncode r = 0
    /\ json_loads (stdout r) = inr (JList entries)
    /\ Forall2 names_repository entries names.

(** The verdict on a file as a function of the reply to its query. *)
Definition classify `{Interp} (reply : exn + CompletedProcess)
  : bool * string :=
  match reply with
  | inl e => SafeCleanupVerifier.search_failed e
  | inr r =>
      if returncode r =? 0 then
        match json_loads (stdout r) with
        | inl e => SafeCleanupVerifier.search_failed e
        | inr data =>
            if truthy data then
              match repository_names data with
              | inl e => SafeCleanupVerifier.search_failed e
              | inr repos =>
                  match py_join ", " repos with
                  | inl e => SafeCleanupVerifier.search_failed e
                  | inr joined => (true, "Found in repositories: " +:+ joined)
                  end
              end
            else (false, "File not found in any GitHub repository")
        end
      else (false, "Search failed: " +:+ stderr r)
  end.

(** The filenames of a bucket of the report. *)
Definition bucket_names (bucket : list (string * string)) : list string :=
  fst <$> bucket.

(** The entries of a result dictionary that go to the safe bucket, and
    those that go to the unsafe one. *)
Definition safe_part (results : dict (bool * string))
  : list (string * string) :=
  (fun item => (fst item, snd (snd item)))
    <$> filter (fun item => fst (snd item) = true) results.

Definition unsafe_part (results : dict (bool * string))
  : list (string * string) :=
  (fun item => (fst item, snd (snd item)))
    <$> filter (fun item => fst (snd item) <> true) results.

(** A command that did not do its work: it could not be run, or it exited
    with a status other than 0. *)
Definition fails {W} (outcome : (exn + CompletedProcess) * W) : Prop :=
  match fst outcome with
  | inl _ => True
  | inr r => returncode r <> 0
  end.

(** A success rate between 0 and 100. *)
Definition is_percentage (x : pynum) : Prop :=
  match x with
  | PyInt n => 0 <= n <= 100
  | PyFloat q => (0 <= q <= 100)%Q
  end.

(** The float whose value is [q]. *)
Definition is_float (x : pynum) (q : Q) : Prop :=
  exists y, x = PyFloat y /\ (y == q)%Q.

Section Trace.
Context {W : Type}.

(** The suite run probe after probe, each in the world its predecessor
    left, whatever the outcomes: the outcome of every probe, and the world
    at the end. *)
Fixpoint suite_trace (tests : list (string * (W -> (exn + bool) * W))) (w : W)
  : list (string * (exn + bool)) * W :=
  match tests with
  | [] => ([], w)
  | (name, probe) :: rest =>
      let '(outcome, w1) := probe w in
      let '(trace, w2) := suite_trace rest w1 in
      ((name, outcome) :: trace, w2)
  end.
End Trace.

(** A probe passed when it returned a true value. *)
Definition passed (event : string * (exn + bool)) : bool :=
  match snd event with
  | inr true => true
  | _ => false
  end.

(** The two lines that the aggregator prints for a probe. *)
Definition event_lines `{Interp} (event : string * (exn + bool)) : list string :=
  let name := fst event in
  [ "🧪 Running test: " +:+ name;
    match snd event with
    | inr true => "✅ PASSED: " +:+ name
    | inr false => "❌ FAILED: " +:+ name
    | inl e => "❌ ERROR in " +:+ name +:+ ": " +:+ str_exn e
    end ].

(** The counters and the result dictionary after one more probe. *)
Definition tally_event (acc : OrchestrationSystemTester.t * dict bool)
    (event : string * (exn + bool)) : OrchestrationSystemTester.t * dict bool :=
  let self := fst acc in
  (if passed event then
     {| OrchestrationSystemTester.test_results :=
          OrchestrationSystemTester.test_results self;
        OrchestrationSystemTester.total_tests :=
          OrchestrationSystemTester.total_tests self + 1;
        OrchestrationSystemTester.passed_tests :=
          OrchestrationSystemTester.passed_tests self + 1;
        OrchestrationSystemTester.failed_tests :=
          OrchestrationSystemTester.failed_tests self |}
   else
     {| OrchestrationSystemTester.test_results :=
          OrchestrationSystemTester.test_results self;
        OrchestrationSystemTester.total_tests :=
          OrchestrationSystemTester.total_tests self + 1;
        OrchestrationSystemTester.passed_tests :=
          OrchestrationSystemTester.passed_tests self;
        OrchestrationSystemTester.failed_tests :=
          OrchestrationSystemTester.failed_tests self + 1 |},
   dict_set (fst event) (passed event) (snd acc)).

Definition count_failed (trace : list (string * (exn + bool))) : Z :=
  Z.of_nat (length (filter (fun ev => passed ev = false) trace)).

Definition count_passed (trace : list (string * (exn + bool))) : Z :=
  Z.of_nat (length (filter (fun ev => passed ev = true) trace)).


Section Queries.
Context {W : Type} `{OS W} `{Interp}.

(** The query about one filename, put to the world [w]. *)
Definition query (self : SafeCleanupVerifier.t) (filename : string) (w : W)
  : (exn + CompletedProcess) * W :=
  subprocess_run (SafeCleanupVerifier.search_command self filename)
    (Some 30%nat) w.

(** The verdict that the query about [filename] yields in [w]. *)
Definition verdict (self : SafeCleanupVerifier.t) (filename : string) (w : W)
  : bool * string :=
  classify (fst (query self filename w)).

(** The world after one query for each entry of [filenames], in order. *)
Fixpoint queried (self : SafeCleanupVerifier.t) (filenames : list string)
    (w : W) : W :=
  match filenames with
  | [] => w
  | f :: rest => queried self rest (snd (query self f w))
  end.

(** The dictionary after those queries, each verdict stored under its
    filename. *)
Fixpoint collect (self : SafeCleanupVerifier.t) (filenames : list string)
    (results : dict (bool * string)) (w : W) : dict (bool * string) :=
  match filenames with
  | [] => results
  | f :: rest =>
      collect self rest (dict_set f (verdict self f w) results)
        (snd (query self f w))
  end.
End Queries.

(** The keys of a dictionary after a store under [k]. *)
Definition add_key (k : string) (keys : list string) : list string :=
  if bool_decide (k ∈ keys) then keys else keys ++ [k].

(** The filenames of a list, each at its first occurrence. *)
Definition first_occurrences (filenames : list string) : list string :=
  fold_left (fun keys k => add_key k keys) filenames [].

(** The report for the results of a verification pass. *)
Definition report_of (files : list string) (results : dict (bool * string))
    (stamp : string) : SafeCleanupVerifier.report :=
  {| SafeCleanupVerifier.total_files := SafeCleanupVerifier.len files;
     SafeCleanupVerifier.safe_to_delete :=
       SafeCleanupVerifier.len (safe_part results);
     SafeCleanupVerifier.unsafe_to_delete :=
       SafeCleanupVerifier.len (unsafe_part results);
     SafeCleanupVerifier.safe_files := safe_part results;
     SafeCleanupVerifier.unsafe_files := unsafe_part results;
     SafeCleanupVerifier.verification_timestamp := stamp |}.


(** The report of the aggregator for the counters in [self]. *)
Definition test_report `{Binary64} (self : OrchestrationSystemTester.t)
    (results : dict bool) (now : string) : OrchestrationSystemTester.report :=
  {| OrchestrationSystemTester.timestamp := now;
     OrchestrationSystemTester.r_total_tests :=
       OrchestrationSystemTester.total_tests self;
     OrchestrationSystemTester.r_passed_tests :=
       OrchestrationSystemTester.passed_tests self;
     OrchestrationSystemTester.r_failed_tests :=
       OrchestrationSystemTester.failed_tests self;
     OrchestrationSystemTester.success_rate :=
       OrchestrationSystemTester.success_rate_of
         (OrchestrationSystemTester.passed_tests self)
         (OrchestrationSystemTester.total_tests self);
     OrchestrationSystemTester.r_test_results := results;
     OrchestrationSystemTester.system_status :=
       if OrchestrationSystemTester.failed_tests self =? 0
       then "healthy" else "issues_detected" |}.


(** A command run without a timeout in [w] that left [w'] and exited
    with 0. *)
Definition succeeds {W} `{OS W} (argv : list string) (w w' : W) : Prop :=
  exists r, subprocess_run argv None w = (inr r, w') /\ returncode r = 0.


(** The steps of a publication up to [git commit], all gone through, from
    the world [w0] to the world [w5] in which [git push] is then run. *)
Definition staged {W} `{OS W} (self : SafeCleanupVerifier.t)
    (filename target_repo : string) (w0 w5 : W) : Prop :=
  let clone := SafeCleanupVerifier.clone_dir target_repo in
  exists w1 w2 w3 w4,
    (if os_path_exists clone w0 then w1 = w0
     else exists wa,
         succeeds ["mkdir"; "-p"; "temp_repos"] w0 wa
         /\ succeeds ["gh"; "repo"; "clone";
                      SafeCleanupVerifier.github_org self +:+ "/"
                      +:+ target_repo; clone] wa w1)
    /\ succeeds ["cp"; filename; clone +:+ "/"] w1 w2
    /\ os_chdir clone w2 = (inr tt, w3)
    /\ succeeds ["git"; "add"; filename] w3 w4
    /\ succeeds ["git"; "commit"; "-m";
                 "Add " +:+ filename +:+ " - orchestration system"] w4 w5.

(** The line feed, and the strings without one. *)
Definition newline : string := String "010" "".

Definition one_line (s : string) : Prop :=
  "010"%char ∉ list_ascii_of_string s.

(** A JSON value that has a length, and a positive one. *)
Definition sized_nonempty (v : json) : Prop :=
  (exists l, v = JList l /\ l <> [])
  \/ (exists d, v = JDict d /\ d <> [])
  \/ (exists t, v = JStr t /\ t <> "").


(** * Properties *)

(** ** The monad *)

Ltac py_unfold :=
  unfold run_checked in *; unfold run, path_exists, chdir in *;
  unfold bind, ret, raise, try_except, lift, on_world, print in *;
  simpl in *.

Lemma for_each_cons {W A S} (x : A) (l : list A) (body : A -> S -> Py W S)
    (acc : S) (s : state W) :
  for_each (x :: l) body acc s =
  match body x acc s with
  | (inr acc', s') => for_each l body acc' s'
  | (inl e, s') => (inl e, s')
  end.
Proof. reflexivity. Qed.

(** ** Reading a search reply *)

Lemma py_getitem_inr (v : json) (k : string) (x : json) :
  py_getitem v k = inr x <-> exists d, v = JDict d /\ dict_get k d = Some x.
Proof.
  split.
  - destruct v; simpl; try discriminate.
    destruct (dict_get k d) eqn:E; [|discriminate].
    intros [= <-]. eauto.
  - intros (d & -> & E). simpl. now rewrite E.
Qed.

Lemma py_join_from_cons (i : nat) (sep s : string) (v : json)
    (rest : list json) :
  py_join_from i sep (JStr s :: v :: rest) =
  match py_join_from (S i) sep (v :: rest) with
  | inr t => inr (s +:+ sep +:+ t)
  | inl e => inl e
  end.
Proof. reflexivity. Qed.

Lemma py_join_from_strings (i : nat) (sep : string) (names : list string) :
  py_join_from i sep (JStr <$> names) = inr (String.concat sep names).
Proof.
  revert i. induction names as [|x [|y rest] IH]; intros i.
  - reflexivity.
  - reflexivity.
  - change (JStr <$> x :: y :: rest)
      with (JStr x :: JStr y :: (JStr <$> rest)).
    rewrite py_join_from_cons.
    change (JStr y :: (JStr <$> rest)) with (JStr <$> y :: rest).
    now rewrite IH.
Qed.

Lemma py_join_from_inr (i : nat) (sep : string) (items : list json)
    (joined : string) :
  py_join_from i sep items = inr joined ->
  exists names, items = JStr <$> names.
Proof.
  revert i joined. induction items as [|v items IH]; intros i joined E.
  - now exists [].
  - destruct v; try discriminate E.
    destruct items as [|v' items'].
    + now exists [s].
    + rewrite py_join_from_cons in E.
      destruct (py_join_from (S i) sep (v' :: items')) as [e|t] eqn:Et;
        [discriminate E|].
      destruct (IH _ _ Et) as [names ->]. now exists (s :: names).
Qed.

Lemma repository_names_complete (entries : list json) (names : list string) :
  Forall2 names_repository entries names ->
  repository_names_of entries = inr (JStr <$> names).
Proof.
  induction 1 as [|entry name entries names (d & r & -> & Er & En) _ IH].
  - reflexivity.
  - simpl. rewrite Er. simpl. rewrite En, IH. reflexivity.
Qed.

Lemma repository_names_sound (entries : list json) (names : list string) :
  repository_names_of entries = inr (JStr <$> names) ->
  Forall2 names_repository entries names.
Proof.
  revert names. induction entries as [|entry entries IH]; intros names E.
  - destruct names; [constructor | discriminate E].
  - simpl in E.
    destruct (py_getitem entry "repository") as [e|r] eqn:Er; [discriminate|].
    destruct (py_getitem r "name") as [e|n] eqn:En; [discriminate|].
    destruct (repository_names_of entries) as [e|ns] eqn:Ens; [discriminate|].
    destruct names as [|name names]; [discriminate|].
    injection E as -> ->.
    apply py_getitem_inr in Er as (d & -> & Er).
    apply py_getitem_inr in En as (rd & -> & En).
    constructor; [now exists d, rd | now apply IH].
Qed.

(** ** [verify_file_in_github] *)

Section VerifyFile.
Context {W : Type} `{OS W} `{Interp}.
Import SafeCleanupVerifier.

(** The call always returns: its verdict is [classify] of the reply, the
    world it leaves is the one the query left, and it prints nothing. *)
Lemma verify_file_in_github_classify (self : t) (filename : string)
    (s : state W) :
  let query :=
    subprocess_run (search_command self filename) (Some 30%nat) (world s) in
  verify_file_in_github self filename s =
  (inr (classify (fst query)), State (snd query) (console s)).
Proof.
  unfold verify_file_in_github, search, classify. py_unfold.
  destruct (subprocess_run _ _ _) as [[e|r] w']; simpl; [reflexivity|].
  destruct (returncode r =? 0); [|reflexivity].
  destruct (json_loads (stdout r)) as [e|data]; [reflexivity|].
  destruct (truthy data); [|reflexivity].
  destruct (repository_names data) as [e|repos]; [reflexivity|].
  destruct (py_join ", " repos) as [e|joined]; reflexivity.
Qed.

Lemma search_failed_unsafe (e : exn) :
  fst (search_failed e) = false
  /\ (snd (search_failed e) = "Search timed out"
      \/ snd (search_failed e) = "Error searching: " +:+ str_exn e).
Proof. destruct e; simpl; auto. Qed.

(** A reply that parses to a true value yields [True] exactly when it is a
    list of entries that all name a repository. *)
Lemma found_iff (data : json) :
  truthy data = true ->
  (exists repos joined,
      repository_names data = inr repos /\ py_join ", " repos = inr joined)
  <-> (exists entries names,
         data = JList entries /\ names <> []
         /\ Forall2 names_repository entries names).
Proof.
  intros T. split.
  - intros (repos & joined & Er & Ej).
    apply py_join_from_inr in Ej as [names ->].
    unfold repository_names in Er.
    destruct data as [| | | |text|entries|d]; simpl in Er; try discriminate.
    + destruct text as [|c text]; [discriminate T|]. simpl in Er. discriminate.
    + exists entries, names. split; [reflexivity|].
      split; [|now apply repository_names_sound].
      intros ->. destruct entries as [|entry entries]; [discriminate T|].
      simpl in Er.
      destruct (py_getitem entry "repository") as [|r]; [discriminate|].
      destruct (py_getitem r "name"); [discriminate|].
      destruct (repository_names_of entries); discriminate.
    + destruct d as [|[k v] d]; [discriminate T|]. simpl in Er. discriminate.
  - intros (entries & names & -> & _ & F).
    exists (JStr <$> names), (String.concat ", " names).
    split; [now apply repository_names_complete|].
    apply py_join_from_strings.
Qed.

Lemma classify_found (reply : exn + CompletedProcess) (names : list string) :
  reports_repositories reply names ->
  classify reply =
  (true, "Found in repositories: " +:+ String.concat ", " names).
Proof.
  intros (Hne & r & entries & -> & Erc & Ej & F). unfold classify.
  rewrite Erc, Ej. simpl (0 =? 0). cbv beta iota.
  assert (truthy (JList entries) = true) as ->.
  { destruct F; [congruence | reflexivity]. }
  unfold repository_names, py_iter.
  rewrite (repository_names_complete _ _ F).
  unfold py_join. now rewrite py_join_from_strings.
Qed.

Lemma classify_safe_iff (reply : exn + CompletedProcess) :
  fst (classify reply) = true <-> exists names, reports_repositories reply names.
Proof.
  split.
  - unfold classify. destruct reply as [e|r].
    { intros E. now rewrite (proj1 (search_failed_unsafe e)) in E. }
    destruct (returncode r =? 0) eqn:Erc; [|discriminate].
    apply Z.eqb_eq in Erc.
    destruct (json_loads (stdout r)) as [e|data] eqn:Ej.
    { intros E. now rewrite (proj1 (search_failed_unsafe e)) in E. }
    destruct (truthy data) eqn:T; [|discriminate].
    destruct (repository_names data) as [e|repos] eqn:Er.
    { intros E. now rewrite (proj1 (search_failed_unsafe e)) in E. }
    destruct (py_join ", " repos) as [e|joined] eqn:Ejoin.
    { intros E. now rewrite (proj1 (search_failed_unsafe e)) in E. }
    intros _.
    destruct (proj1 (found_iff data T)) as (entries & names & -> & Hne & F);
      [eauto|].
    exists names. split; [assumption|]. now exists r, entries.
  - intros [names N]. now rewrite (classify_found _ _ N).
Qed.

(** C1. Whatever the filename and whatever the outcome of the search
    command, [verify_file_in_github] returns a pair of a truth value and a
    reason and raises nothing.  The truth value is [True] exactly when the
    command succeeded and its output lists at least one owning repository,
    and then the reason lists the repositories.  It is [False], with the
    reason shown, when the output lists no repository, when the command
    exits with a status other than 0, when it times out, when its output
    cannot be parsed, and when the command could not be run at all. *)
Theorem verify_file_in_github_fail_closed (self : t) (filename : string)
    (s : state W) :
  let reply :=
    fst (subprocess_run (search_command self filename) (Some 30%nat) (world s)) in
  exists (safe : bool) (reason : string) (s' : state W),
    verify_file_in_github self filename s = (inr (safe, reason), s')
    /\ (safe = true <-> exists names, reports_repositories reply names)
    /\ (forall names, reports_repositories reply names ->
        reason = "Found in repositories: " +:+ String.concat ", " names)
    /\ (forall r, reply = inr r -> returncode r = 0 ->
        json_loads (stdout r) = inr (JList []) ->
        safe = false /\ reason = "File not found in any GitHub repository")
    /\ (forall r, reply = inr r -> returncode r <> 0 ->
        safe = false /\ reason = "Search failed: " +:+ stderr r)
    /\ (forall cmd t, reply = inl (TimeoutExpired cmd t) ->
        safe = false /\ reason = "Search timed out")
    /\ (forall r e, reply = inr r -> returncode r = 0 ->
        json_loads (stdout r) = inl e ->
        safe = false
        /\ (reason = "Search timed out"
            \/ reason = "Error searching: " +:+ str_exn e))
    /\ (forall e, reply = inl e ->
        safe = false
        /\ (reason = "Search timed out"
            \/ reason = "Error searching: " +:+ str_exn e)).
Proof.
  intros reply.
  exists (fst (classify reply)), (snd (classify reply)). eexists.
  split.
  { rewrite verify_file_in_github_classify. fold reply.
    now destruct (classify reply). }
  split; [apply classify_safe_iff|].
  split; [intros names N; now rewrite (classify_found _ _ N)|].
  split.
  { intros r -> Erc Ej. unfold classify. rewrite Erc, Ej. simpl. auto. }
  split.
  { intros r -> Erc. unfold classify.
    apply Z.eqb_neq in Erc. rewrite Erc. simpl. auto. }
  split; [intros cmd t ->; simpl; auto|].
  split.
  { intros r e -> Erc Ej. unfold classify. rewrite Erc, Ej. simpl.
    apply search_failed_unsafe. }
  intros e ->. apply search_failed_unsafe.
Qed.

End VerifyFile.

(** ** Dictionaries *)

Section DictFacts.
Context {V : Type}.
Implicit Types (d : dict V) (k : string) (v : V).

Lemma add_key_cons k k' (keys : list string) :
  add_key k (k' :: keys) =
  if String.eqb k k' then k' :: keys else k' :: add_key k keys.
Proof.
  unfold add_key. destruct (String.eqb_spec k k') as [->|Hne].
  - rewrite bool_decide_eq_true_2; [reflexivity | apply list_elem_of_here].
  - case_bool_decide as E; case_bool_decide as E'; try reflexivity.
    + apply elem_of_cons in E as [?|?]; congruence.
    + exfalso. apply E. now apply list_elem_of_further.
Qed.

Lemma dict_keys_set k v d :
  dict_keys (dict_set k v d) = add_key k (dict_keys d).
Proof.
  unfold dict_keys. induction d as [|[k' v'] d IH].
  - reflexivity.
  - change (map fst ((k', v') :: d)) with (k' :: map fst d).
    rewrite add_key_cons. simpl.
    destruct (String.eqb k k'); simpl; [reflexivity | now rewrite IH].
Qed.

Lemma dict_get_set_eq k v d : dict_get k (dict_set k v d) = Some v.
Proof.
  induction d as [|[k' v'] d IH]; simpl.
  - now rewrite String.eqb_refl.
  - destruct (String.eqb_spec k k') as [->|Hne]; simpl.
    + now rewrite String.eqb_refl.
    + destruct (String.eqb_spec k k'); [contradiction | exact IH].
Qed.

Lemma dict_get_set_ne k k' v d :
  k <> k' -> dict_get k' (dict_set k v d) = dict_get k' d.
Proof.
  intros Hne. induction d as [|[k0 v0] d IH]; simpl.
  - destruct (String.eqb_spec k' k); congruence.
  - destruct (String.eqb_spec k k0) as [->|Hne0]; simpl.
    + destruct (String.eqb_spec k' k0); congruence.
    + now rewrite IH.
Qed.

End DictFacts.

(** ** Keys in order of first occurrence *)

Lemma add_key_elem_of (k x : string) (keys : list string) :
  x ∈ add_key k keys <-> x ∈ keys \/ x = k.
Proof.
  unfold add_key. case_bool_decide as E.
  - split; [auto | intros [?| ->]; assumption].
  - rewrite elem_of_app, list_elem_of_singleton. reflexivity.
Qed.

Lemma add_key_NoDup (k : string) (keys : list string) :
  NoDup keys -> NoDup (add_key k keys).
Proof.
  intros N. unfold add_key. case_bool_decide as E; [assumption|].
  apply NoDup_app. split; [assumption|]. split.
  - intros x Hx ->%list_elem_of_singleton. contradiction.
  - apply NoDup_singleton.
Qed.

Lemma fold_add_key_elem_of (files keys : list string) (x : string) :
  x ∈ fold_left (fun ks k => add_key k ks) files keys <-> x ∈ keys \/ x ∈ files.
Proof.
  revert keys. induction files as [|f files IH]; intros keys; simpl.
  - rewrite elem_of_nil. tauto.
  - rewrite IH, add_key_elem_of, elem_of_cons. tauto.
Qed.

Lemma fold_add_key_NoDup (files keys : list string) :
  NoDup keys -> NoDup (fold_left (fun ks k => add_key k ks) files keys).
Proof.
  revert keys. induction files as [|f files IH]; intros keys N; simpl.
  - assumption.
  - apply IH. now apply add_key_NoDup.
Qed.

Lemma fold_add_key_sublist (files keys : list string) :
  fold_left (fun ks k => add_key k ks) files keys `sublist_of` keys ++ files.
Proof.
  revert keys. induction files as [|f files IH]; intros keys; simpl.
  - now rewrite app_nil_r.
  - etransitivity; [apply IH|]. unfold add_key. case_bool_decide.
    + apply sublist_app; [reflexivity|]. now apply sublist_cons.
    + now rewrite <- app_assoc.
Qed.

Lemma fold_add_key_fresh (files keys : list string) :
  NoDup (keys ++ files) ->
  fold_left (fun ks k => add_key k ks) files keys = keys ++ files.
Proof.
  revert keys. induction files as [|f files IH]; intros keys N; simpl.
  - now rewrite app_nil_r.
  - assert (add_key f keys = keys ++ [f]) as ->.
    { unfold add_key. rewrite bool_decide_eq_false_2; [reflexivity|].
      apply NoDup_app in N as (_ & N & _). intros Hf. apply (N f Hf).
      apply list_elem_of_here. }
    rewrite IH; rewrite <- app_assoc; [reflexivity | exact N].
Qed.

Lemma first_occurrences_NoDup (files : list string) :
  NoDup (first_occurrences files).
Proof. apply fold_add_key_NoDup, NoDup_nil_2. Qed.

Lemma first_occurrences_elem_of (files : list string) (x : string) :
  x ∈ first_occurrences files <-> x ∈ files.
Proof.
  unfold first_occurrences. rewrite fold_add_key_elem_of, elem_of_nil. tauto.
Qed.

Lemma first_occurrences_sublist (files : list string) :
  first_occurrences files `sublist_of` files.
Proof. apply (fold_add_key_sublist files []). Qed.

Lemma first_occurrences_fresh (files : list string) :
  NoDup files -> first_occurrences files = files.
Proof. intros N. now apply (fold_add_key_fresh files []). Qed.

(** The number of distinct filenames, counted either way. *)
Lemma first_occurrences_length (files : list string) :
  length (first_occurrences files) = length (remove_dups files).
Proof.
  apply Permutation_length, NoDup_Permutation.
  - apply first_occurrences_NoDup.
  - apply NoDup_remove_dups.
  - intros x. now rewrite first_occurrences_elem_of, elem_of_remove_dups.
Qed.

(** ** [verify_multiple_files] and [safe_cleanup_with_verification] *)

Lemma bind_print {W B} (line : string) (k : unit -> Py W B) (s : state W) :
  bind (print line) k s = k tt (State (world s) (console s ++ [line])).
Proof. reflexivity. Qed.

Lemma bind_eq {W A B} (m : Py W A) (k : A -> Py W B) (s : state W) :
  bind m k s =
  match m s with
  | (inr a, s') => k a s'
  | (inl e, s') => (inl e, s')
  end.
Proof. reflexivity. Qed.

Lemma bucket_names_safe_part (results : dict (bool * string)) :
  bucket_names (safe_part results) =
  fst <$> filter (fun item => fst (snd item) = true) results.
Proof.
  unfold bucket_names, safe_part. rewrite <- list_fmap_compose.
  now apply list_fmap_ext.
Qed.

Lemma bucket_names_unsafe_part (results : dict (bool * string)) :
  bucket_names (unsafe_part results) =
  fst <$> filter (fun item => fst (snd item) <> true) results.
Proof.
  unfold bucket_names, unsafe_part. rewrite <- list_fmap_compose.
  now apply list_fmap_ext.
Qed.

(** The two buckets hold the keys of the dictionary, each once. *)
Lemma buckets_permutation (results : dict (bool * string)) :
  bucket_names (safe_part results) ++ bucket_names (unsafe_part results)
  ≡ₚ dict_keys results.
Proof.
  rewrite bucket_names_safe_part, bucket_names_unsafe_part, <- fmap_app.
  unfold dict_keys. change (map fst results) with (fst <$> results).
  apply fmap_Permutation, filter_app_complement.
Qed.

Lemma safe_part_sublist (results : dict (bool * string)) :
  bucket_names (safe_part results) `sublist_of` dict_keys results.
Proof.
  rewrite bucket_names_safe_part. unfold dict_keys.
  change (map fst results) with (fst <$> results).
  apply fmap_sublist, sublist_filter.
Qed.

Lemma unsafe_part_sublist (results : dict (bool * string)) :
  bucket_names (unsafe_part results) `sublist_of` dict_keys results.
Proof.
  rewrite bucket_names_unsafe_part. unfold dict_keys.
  change (map fst results) with (fst <$> results).
  apply fmap_sublist, sublist_filter.
Qed.

Lemma safe_part_cons (results : dict (bool * string)) (k m : string)
    (b : bool) :
  safe_part ((k, (b, m)) :: results) =
  (if b then [(k, m)] else []) ++ safe_part results.
Proof.
  unfold safe_part. rewrite filter_cons. destruct b; reflexivity.
Qed.

Lemma unsafe_part_cons (results : dict (bool * string)) (k m : string)
    (b : bool) :
  unsafe_part ((k, (b, m)) :: results) =
  (if b then [] else [(k, m)]) ++ unsafe_part results.
Proof.
  unfold unsafe_part. rewrite filter_cons. destruct b; reflexivity.
Qed.

Section Cleanup.
Context {W : Type} `{OS W} `{Interp}.
Import SafeCleanupVerifier.

(** The loop of [verify_multiple_files] never raises: it puts one query
    per entry of the list, in order, and stores each verdict. *)
Lemma verify_loop (self : t) (files : list string)
    (results : dict (bool * string)) (s : state W) :
  exists c,
    for_each files (verify_step self) results s =
    (inr (collect self files results (world s)),
     State (queried self files (world s)) c).
Proof.
  revert results s. induction files as [|f files IH]; intros results s.
  - exists (console s). now destruct s.
  - rewrite for_each_cons. unfold verify_step at 1.
    rewrite bind_print, bind_eq, verify_file_in_github_classify.
    cbv zeta. simpl world. simpl console.
    destruct (IH (dict_set f (verdict self f (world s)) results)
                (State (snd (query self f (world s)))
                       (console s ++ ["Verifying " +:+ f +:+ "..."])))
      as [c IHc].
    exists c. exact IHc.
Qed.

Lemma categorize_step_eq (k m : string) (b : bool)
    (acc : list (string * string) * list (string * string)) (s : state W) :
  exists line,
    categorize_step (k, (b, m)) acc s =
    (inr (fst acc ++ (if b then [(k, m)] else []),
          snd acc ++ (if b then [] else [(k, m)])),
     State (world s) (console s ++ [line])).
Proof.
  destruct b; eexists; unfold categorize_step; rewrite bind_print;
    unfold ret; simpl; rewrite app_nil_r; reflexivity.
Qed.

(** The sorting loop never raises and leaves the world alone: it appends
    the safe entries to the first list and the others to the second. *)
Lemma categorize_loop (results : dict (bool * string))
    (acc : list (string * string) * list (string * string)) (s : state W) :
  exists c,
    for_each results categorize_step acc s =
    (inr (fst acc ++ safe_part results, snd acc ++ unsafe_part results),
     State (world s) c).
Proof.
  revert acc s. induction results as [|[k [b m]] results IH]; intros acc s.
  - exists (console s). simpl. unfold ret, safe_part, unsafe_part. simpl.
    rewrite !app_nil_r. now destruct acc, s.
  - rewrite for_each_cons.
    destruct (categorize_step_eq k m b acc s) as [line ->].
    edestruct IH as [c ->]. exists c.
    rewrite safe_part_cons, unsafe_part_cons. simpl fst. simpl snd.
    simpl world. now rewrite !app_assoc.
Qed.

Lemma collect_keys (self : t) (files : list string)
    (results : dict (bool * string)) (w : W) :
  dict_keys (collect self files results w) =
  fold_left (fun keys k => add_key k keys) files (dict_keys results).
Proof.
  revert results w. induction files as [|f files IH]; intros results w; simpl.
  - reflexivity.
  - now rewrite IH, dict_keys_set.
Qed.

Lemma collect_app (self : t) (before after : list string)
    (results : dict (bool * string)) (w : W) :
  collect self (before ++ after) results w =
  collect self after (collect self before results w) (queried self before w).
Proof.
  revert results w. induction before as [|f before IH]; intros results w;
    simpl; [reflexivity | apply IH].
Qed.

Lemma collect_other (self : t) (files : list string)
    (results : dict (bool * string)) (w : W) (f : string) :
  f ∉ files ->
  dict_get f (collect self files results w) = dict_get f results.
Proof.
  revert results w. induction files as [|g files IH]; intros results w N;
    simpl; [reflexivity|].
  apply not_elem_of_cons in N as [Hne N].
  rewrite IH by assumption. apply dict_get_set_ne. congruence.
Qed.

(** The result kept for a filename is the verdict of its last query. *)
Lemma collect_last (self : t) (before after : list string) (f : string)
    (w : W) :
  f ∉ after ->
  dict_get f (collect self (before ++ f :: after) [] w) =
  Some (verdict self f (queried self before w)).
Proof.
  intros N. rewrite collect_app. simpl.
  rewrite collect_other by assumption. apply dict_get_set_eq.
Qed.

Lemma verify_multiple_files_collect (self : t) (files : list string)
    (s : state W) :
  exists c,
    verify_multiple_files self files s =
    (inr (collect self files [] (world s)),
     State (queried self files (world s)) c).
Proof. apply verify_loop. Qed.

(** What [safe_cleanup_with_verification] returns: the report of the
    verification pass, unless [date] cannot be run or the log cannot be
    written. *)
Lemma safe_cleanup_outcome (self : t) (files : list string) (s : state W) :
  let results := collect self files [] (world s) in
  fst (safe_cleanup_with_verification self files s) =
  match subprocess_run ["date"] None (queried self files (world s)) with
  | (inl e, _) => inl e
  | (inr date, w2) =>
      let report := report_of files results (str_strip (stdout date)) in
      match dump_json "cleanup_verification_log.json"
              (json_of_report report) w2 with
      | (inl e, _) => inl e
      | (inr _, _) => inr report
      end
  end.
Proof.
  intros results. unfold safe_cleanup_with_verification.
  rewrite !bind_print, bind_eq.
  edestruct verify_multiple_files_collect as [c ->]. simpl world.
  rewrite bind_eq. unfold categorize.
  edestruct categorize_loop as [c' ->]. simpl world. simpl fst. simpl snd.
  rewrite bind_eq. unfold run, on_world. simpl world.
  destruct (subprocess_run ["date"] None _) as [[e|date] w2]; [reflexivity|].
  rewrite bind_eq. simpl world.
  fold results.
  change {| total_files := len files;
            safe_to_delete := len (safe_part results);
            unsafe_to_delete := len (unsafe_part results);
            safe_files := safe_part results;
            unsafe_files := unsafe_part results;
            verification_timestamp := str_strip (stdout date) |}
    with (report_of files results (str_strip (stdout date))).
  destruct (dump_json _ _ w2) as [[e|u] w3]; reflexivity.
Qed.

(** Every report that is returned is the report of the pass. *)
Lemma safe_cleanup_report (self : t) (files : list string) (s s' : state W)
    (r : report) :
  safe_cleanup_with_verification self files s = (inr r, s') ->
  exists stamp, r = report_of files (collect self files [] (world s)) stamp.
Proof.
  intros E. pose proof (safe_cleanup_outcome self files s) as O.
  rewrite E in O. simpl in O.
  destruct (subprocess_run ["date"] None _) as [[e|date] w2]; [discriminate|].
  destruct (dump_json _ _ w2) as [[e|u] w3]; [discriminate|].
  injection O as ->. eauto.
Qed.

Lemma report_names_permutation (files : list string)
    (results : dict (bool * string)) (stamp : string) :
  dict_keys results = first_occurrences files ->
  let r := report_of files results stamp in
  bucket_names (safe_files r) ++ bucket_names (unsafe_files r)
  ≡ₚ first_occurrences files.
Proof. intros <-. apply buckets_permutation. Qed.

Lemma collect_first_occurrences (self : t) (files : list string) (w : W) :
  dict_keys (collect self files [] w) = first_occurrences files.
Proof. apply collect_keys. Qed.

Lemma report_counts (files : list string) (results : dict (bool * string))
    (stamp : string) :
  let r := report_of files results stamp in
  safe_to_delete r + unsafe_to_delete r = len (dict_keys results).
Proof.
  simpl. unfold len. rewrite <- Nat2Z.inj_add. f_equal.
  rewrite <- (length_fmap fst (safe_part results)).
  rewrite <- (length_fmap fst (unsafe_part results)).
  rewrite <- length_app.
  apply Permutation_length, buckets_permutation.
Qed.

(** The two buckets of a returned report hold the filenames of the input,
    each once. *)
Lemma report_bucket_names (self : t) (files : list string)
    (s s' : state W) (r : report) :
  safe_cleanup_with_verification self files s = (inr r, s') ->
  let names := bucket_names (safe_files r) ++ bucket_names (unsafe_files r) in
  NoDup names /\ (forall f, f ∈ files <-> f ∈ names).
Proof.
  intros E. destruct (safe_cleanup_report _ _ _ _ _ E) as [stamp ->].
  intros names.
  pose proof (report_names_permutation files _ stamp
                (collect_first_occurrences self files (world s))) as P.
  cbv zeta in P. fold names in P. split.
  - rewrite P. apply first_occurrences_NoDup.
  - intros f. now rewrite P, first_occurrences_elem_of.
Qed.

(** C2, as amended. For every input list in which no filename occurs
    twice, the report satisfies
    [safe_to_delete + unsafe_to_delete = total_files]; and for every input
    list, with or without repetitions, each input filename appears in
    exactly one of the two buckets, and the filenames of the two buckets
    together are the filenames of the input, none twice and none missing. *)
Theorem report_partitions_input (self : t) (files : list string)
    (s s' : state W) (r : report) :
  safe_cleanup_with_verification self files s = (inr r, s') ->
  let safe := bucket_names (safe_files r) in
  let unsafe := bucket_names (unsafe_files r) in
  (NoDup files -> safe_to_delete r + unsafe_to_delete r = total_files r)
  /\ NoDup (safe ++ unsafe)
  /\ (forall f, f ∈ files <-> f ∈ safe ++ unsafe)
  /\ (forall f, f ∈ files -> (f ∈ safe /\ f ∉ unsafe) \/ (f ∈ unsafe /\ f ∉ safe)).
Proof.
  intros E. destruct (report_bucket_names _ _ _ _ _ E) as [N M].
  destruct (safe_cleanup_report _ _ _ _ _ E) as [stamp ->].
  intros safe unsafe. fold safe unsafe in N, M.
  split; [|split; [exact N | split; [exact M|]]].
  - intros Nf. rewrite report_counts, collect_first_occurrences.
    now rewrite first_occurrences_fresh.
  - intros f Hf. apply M in Hf. apply NoDup_app in N as (_ & N & _).
    apply elem_of_app in Hf as [Hf|Hf]; [left | right]; split; auto.
    intros Hs. now apply (N f Hs).
Qed.

(** C8. For every input list, the safe bucket lists its filenames in the
    order in which they occur in the input (for a repeated filename, the
    place of its first occurrence), and so does the unsafe bucket. *)
Theorem buckets_preserve_input_order (self : t) (files : list string)
    (s s' : state W) (r : report) :
  safe_cleanup_with_verification self files s = (inr r, s') ->
  (bucket_names (safe_files r) `sublist_of` first_occurrences files
   /\ bucket_names (safe_files r) `sublist_of` files)
  /\ (bucket_names (unsafe_files r) `sublist_of` first_occurrences files
      /\ bucket_names (unsafe_files r) `sublist_of` files).
Proof.
  intros E. destruct (safe_cleanup_report _ _ _ _ _ E) as [stamp ->].
  simpl safe_files. simpl unsafe_files.
  pose proof (safe_part_sublist (collect self files [] (world s))) as Ss.
  pose proof (unsafe_part_sublist (collect self files [] (world s))) as Su.
  rewrite collect_first_occurrences in Ss, Su.
  pose proof (first_occurrences_sublist files) as F.
  repeat split; try assumption; etransitivity; eassumption.
Qed.

(** C10. When a filename occurs more than once in the input of
    [safe_cleanup_with_verification], the search is run once for each
    occurrence, the results are stored under the filename so that the
    verdict kept is that of the last occurrence, each distinct filename
    appears exactly once across the two buckets, the two counts add up to
    the number of distinct filenames, and [total_files] is the length of
    the input list. *)
Theorem duplicates_are_merged (self : t) (files : list string) (s : state W) :
  let results := collect self files [] (world s) in
  (exists c,
      verify_multiple_files self files s =
      (inr results, State (queried self files (world s)) c))
  /\ (forall before f after,
        files = before ++ f :: after -> f ∉ after ->
        dict_get f results
        = Some (verdict self f (queried self before (world s))))
  /\ (forall r s',
        safe_cleanup_with_verification self files s = (inr r, s') ->
        let names :=
          bucket_names (safe_files r) ++ bucket_names (unsafe_files r) in
        safe_files r = safe_part results
        /\ unsafe_files r = unsafe_part results
        /\ NoDup names
        /\ (forall f, f ∈ files <-> f ∈ names)
        /\ safe_to_delete r + unsafe_to_delete r
           = Z.of_nat (length (remove_dups files))
        /\ total_files r = Z.of_nat (length files)).
Proof.
  intros results. split; [apply verify_multiple_files_collect|].
  split.
  { intros before f after -> N. now apply collect_last. }
  intros r s' E. destruct (report_bucket_names _ _ _ _ _ E) as [N M].
  destruct (safe_cleanup_report _ _ _ _ _ E) as [stamp ->].
  intros names. repeat split; try assumption; try apply M.
  rewrite report_counts, collect_first_occurrences. unfold len.
  now rewrite first_occurrences_length.
Qed.

(** C5. For the input [README.md], [ghost_file_12345.py], when the search
    for the first succeeds with one hit in the repository [core] and the
    search for the second succeeds without a hit, the report has
    [total_files = 2], the safe bucket is the one pair of [README.md] and
    "Found in repositories: core", and the unsafe bucket is the one pair of
    the ghost file and "File not found in any GitHub repository"; the
    report is returned whenever [date] runs and the log can be written. *)
Theorem end_to_end_scenario (self : t) (s : state W)
    (r1 r2 : CompletedProcess) (entry : json) :
  let files := ["README.md"; "ghost_file_12345.py"] in
  let w1 := snd (query self "README.md" (world s)) in
  let w2 := snd (query self "ghost_file_12345.py" w1) in
  let expected stamp :=
    {| total_files := 2;
       safe_to_delete := 1;
       unsafe_to_delete := 1;
       safe_files := [("README.md", "Found in repositories: core")];
       unsafe_files :=
         [("ghost_file_12345.py", "File not found in any GitHub repository")];
       verification_timestamp := stamp |} in
  fst (query self "README.md" (world s)) = inr r1 ->
  returncode r1 = 0 ->
  json_loads (stdout r1) = inr (JList [entry]) ->
  names_repository entry "core" ->
  fst (query self "ghost_file_12345.py" w1) = inr r2 ->
  returncode r2 = 0 ->
  json_loads (stdout r2) = inr (JList []) ->
  (forall r s',
      safe_cleanup_with_verification self files s = (inr r, s') ->
      exists stamp, r = expected stamp)
  /\ (forall date w3,
        subprocess_run ["date"] None w2 = (inr date, w3) ->
        fst (dump_json "cleanup_verification_log.json"
               (json_of_report (expected (str_strip (stdout date)))) w3)
        = inr tt ->
        fst (safe_cleanup_with_verification self files s)
        = inr (expected (str_strip (stdout date)))).
Proof.
  intros files w1 w2 expected E1 Rc1 J1 N1 E2 Rc2 J2.
  assert (verdict self "README.md" (world s)
          = (true, "Found in repositories: core")) as V1.
  { unfold verdict. rewrite E1.
    apply (classify_found (inr r1) ["core"]).
    split; [discriminate|]. exists r1, [entry].
    repeat split; try assumption. repeat constructor. assumption. }
  assert (verdict self "ghost_file_12345.py" w1
          = (false, "File not found in any GitHub repository")) as V2.
  { unfold verdict. rewrite E2. unfold classify. now rewrite Rc2, J2. }
  assert (forall stamp,
            report_of files (collect self files [] (world s)) stamp
            = expected stamp) as R.
  { intros stamp. unfold report_of, files. simpl collect.
    fold w1. rewrite V1, V2. reflexivity. }
  split.
  - intros r s' E. destruct (safe_cleanup_report _ _ _ _ _ E) as [stamp ->].
    exists stamp. apply R.
  - intros date w3 D Dump. rewrite safe_cleanup_outcome.
    simpl queried. fold w1 w2. rewrite D. cbv zeta. rewrite R.
    destruct (dump_json _ _ w3) as [[e|u] w4]; [discriminate Dump|].
    reflexivity.
Qed.

End Cleanup.

(** *** The scripted machine on these claims *)

(** C2 fails as stated: for the input [a.py], [a.py] the one result stored
    under [a.py] gives [safe_to_delete + unsafe_to_delete = 1] while
    [total_files = 2]. *)
Lemma repeated_filename_breaks_count :
  exists r s',
    SafeCleanupVerifier.safe_cleanup_with_verification
      SafeCleanupVerifier.__init__ ["a.py"; "a.py"]
      (Machine.searching [Machine.no_hit; Machine.no_hit])
    = (inr r, s')
    /\ SafeCleanupVerifier.total_files r = 2
    /\ SafeCleanupVerifier.unsafe_files r
       = [("a.py", "File not found in any GitHub repository")]
    /\ SafeCleanupVerifier.safe_to_delete r
       + SafeCleanupVerifier.unsafe_to_delete r
       <> SafeCleanupVerifier.total_files r.
Proof.
  eexists. eexists. split; [vm_compute; reflexivity|].
  split; [reflexivity|]. split; [reflexivity|]. discriminate.
Qed.

Lemma report_partitions_input_witness :
  let files := ["README.md"; "ghost_file_12345.py"] in
  exists r s',
    SafeCleanupVerifier.safe_cleanup_with_verification
      SafeCleanupVerifier.__init__ files
      (Machine.searching [Machine.hit; Machine.no_hit])
    = (inr r, s')
    /\ bucket_names (SafeCleanupVerifier.safe_files r) = ["README.md"]
    /\ bucket_names (SafeCleanupVerifier.unsafe_files r)
       = ["ghost_file_12345.py"]
    /\ NoDup files
    /\ SafeCleanupVerifier.safe_to_delete r
       + SafeCleanupVerifier.unsafe_to_delete r
       = SafeCleanupVerifier.total_files r.
Proof.
  intros files. eexists. eexists. split; [vm_compute; reflexivity|].
  split; [reflexivity|]. split; [reflexivity|].
  assert (NoDup files) as N.
  { apply NoDup_cons. split; [|apply NoDup_singleton].
    rewrite list_elem_of_singleton. discriminate. }
  split; [exact N|].
  refine (proj1 (report_partitions_input SafeCleanupVerifier.__init__ files
                   (Machine.searching [Machine.hit; Machine.no_hit])
                   _ _ _) N).
  vm_compute. reflexivity.
Defined.

Lemma buckets_preserve_input_order_witness :
  let files := ["b.py"; "a.py"; "b.py"; "c.py"] in
  exists r s',
    SafeCleanupVerifier.safe_cleanup_with_verification
      SafeCleanupVerifier.__init__ files
      (Machine.searching
         [Machine.no_hit; Machine.hit; Machine.hit; Machine.hit])
    = (inr r, s')
    /\ bucket_names (SafeCleanupVerifier.safe_files r)
       = ["b.py"; "a.py"; "c.py"]
    /\ bucket_names (SafeCleanupVerifier.safe_files r) `sublist_of` files.
Proof.
  intros files. eexists. eexists. split; [vm_compute; reflexivity|].
  split; [reflexivity|].
  refine (proj2 (proj1 (buckets_preserve_input_order
                          SafeCleanupVerifier.__init__ files
                          (Machine.searching
                             [Machine.no_hit; Machine.hit; Machine.hit;
                              Machine.hit])
                          _ _ _))).
  vm_compute. reflexivity.
Defined.

Lemma end_to_end_scenario_witness :
  fst (SafeCleanupVerifier.safe_cleanup_with_verification
         SafeCleanupVerifier.__init__ ["README.md"; "ghost_file_12345.py"]
         (Machine.searching [Machine.hit; Machine.no_hit]))
  = inr {| SafeCleanupVerifier.total_files := 2;
           SafeCleanupVerifier.safe_to_delete := 1;
           SafeCleanupVerifier.unsafe_to_delete := 1;
           SafeCleanupVerifier.safe_files :=
             [("README.md", "Found in repositories: core")];
           SafeCleanupVerifier.unsafe_files :=
             [("ghost_file_12345.py",
               "File not found in any GitHub repository")];
           SafeCleanupVerifier.verification_timestamp :=
             "Tue Nov  3 20:09:00 UTC 2026" |}.
Proof.
  refine (proj2 (end_to_end_scenario SafeCleanupVerifier.__init__
                   (Machine.searching [Machine.hit; Machine.no_hit])
                   (Completed 0 (Machine.one_hit "core") "")
                   (Completed 0 "[]" "")
                   (JDict [("repository", JDict [("name", JStr "core")])])
                   _ _ _ _ _ _ _)
                (Completed 0 (String.append "Tue Nov  3 20:09:00 UTC 2026"
                                            (String "010" "")) "")
                Machine.quiet _ _).
  - reflexivity.
  - reflexivity.
  - reflexivity.
  - exists [("repository", JDict [("name", JStr "core")])],
      [("name", JStr "core")].
    repeat split; reflexivity.
  - reflexivity.
  - reflexivity.
  - reflexivity.
  - reflexivity.
  - reflexivity.
Defined.

Lemma duplicates_are_merged_witness :
  let files := ["a.py"; "b.py"; "a.py"] in
  let s := Machine.searching [Machine.hit; Machine.hit; Machine.no_hit] in
  exists r s',
    SafeCleanupVerifier.safe_cleanup_with_verification
      SafeCleanupVerifier.__init__ files s = (inr r, s')
    /\ SafeCleanupVerifier.safe_files r
       = [("b.py", "Found in repositories: core")]
    /\ SafeCleanupVerifier.unsafe_files r
       = [("a.py", "File not found in any GitHub repository")]
    /\ SafeCleanupVerifier.total_files r = 3
    /\ SafeCleanupVerifier.safe_to_delete r
       + SafeCleanupVerifier.unsafe_to_delete r
       = Z.of_nat (length (remove_dups files)).
Proof.
  intros files s. eexists. eexists.
  split; [vm_compute; reflexivity|].
  split; [reflexivity|]. split; [reflexivity|]. split; [reflexivity|].
  refine (proj1 (proj2 (proj2 (proj2 (proj2
            (proj2 (proj2 (duplicates_are_merged
                             SafeCleanupVerifier.__init__ files s))
               _ _ _)))))).
  vm_compute. reflexivity.
Defined.

(** ** [commit_file_to_github] *)

Lemma bind_inr_inv {W A B} (m : Py W A) (k : A -> Py W B) (s s' : state W)
    (b : B) :
  bind m k s = (inr b, s') ->
  exists a s1, m s = (inr a, s1) /\ k a s1 = (inr b, s').
Proof.
  rewrite bind_eq. destruct (m s) as [[e|a] s1]; [discriminate|]. eauto.
Qed.

Lemma run_checked_inr {W} `{OS W} (argv : list string) (s s' : state W)
    (r : CompletedProcess) :
  run_checked argv s = (inr r, s') ->
  subprocess_run argv None (world s) = (inr r, world s')
  /\ returncode r = 0 /\ console s' = console s.
Proof.
  unfold run_checked, run, on_world. rewrite bind_eq.
  destruct (subprocess_run argv None (world s)) as [[e|r'] w'];
    [discriminate|].
  destruct (returncode r' =? 0) eqn:Erc; [|discriminate].
  intros [= <- <-]. apply Z.eqb_eq in Erc. auto.
Qed.

Lemma chdir_inr {W} `{OS W} (p : string) (s s' : state W) (u : unit) :
  chdir p s = (inr u, s') ->
  os_chdir p (world s) = (inr tt, world s') /\ console s' = console s.
Proof.
  unfold chdir, on_world.
  destruct (os_chdir p (world s)) as [[e|[]] w']; [discriminate|].
  intros [= <- <-]. auto.
Qed.

Lemma run_checked_succeeds {W} `{OS W} (argv : list string) (s : state W)
    (w' : W) :
  succeeds argv (world s) w' ->
  exists r, run_checked argv s = (inr r, State w' (console s)).
Proof.
  intros (r & Run & Rc). exists r.
  unfold run_checked, run, on_world. rewrite bind_eq, Run, Rc. reflexivity.
Qed.

Lemma run_checked_fails {W} `{OS W} (argv : list string) (s : state W) :
  fails (subprocess_run argv None (world s)) ->
  exists e,
    run_checked argv s
    = (inl e, State (snd (subprocess_run argv None (world s))) (console s)).
Proof.
  unfold fails, run_checked, run, on_world. rewrite bind_eq.
  destruct (subprocess_run argv None (world s)) as [[e|r] w']; simpl.
  - eauto.
  - intros Rc. apply Z.eqb_neq in Rc. rewrite Rc. unfold raise. eauto.
Qed.

Section Publisher.
Context {W : Type} `{Posix W} `{Interp}.
Import SafeCleanupVerifier.

(** When the [try] block runs to its end, [git push] has exited with 0 and
    the last change of directory went to the project root. *)
Lemma publish_inr (self : t) (filename target_repo : string)
    (s s' : state W) (b : bool) :
  publish self filename target_repo s = (inr b, s') ->
  b = true
  /\ os_getcwd (world s') = project_root
  /\ exists w r w', subprocess_run ["git"; "push"] None w = (inr r, w')
                    /\ returncode r = 0.
Proof.
  unfold publish. intros E.
  apply bind_inr_inv in E as (cloned & s1 & _ & E).
  apply bind_inr_inv in E as (? & s2 & _ & E).
  apply bind_inr_inv in E as (? & s3 & _ & E).
  apply bind_inr_inv in E as (? & s4 & _ & E).
  apply bind_inr_inv in E as (? & s5 & _ & E).
  apply bind_inr_inv in E as (? & s6 & _ & E).
  apply bind_inr_inv in E as (r & s7 & Push & E).
  apply bind_inr_inv in E as (u & s8 & Back & E).
  rewrite bind_print in E. injection E as <- <-.
  apply run_checked_inr in Push as (Push & Rc & _).
  apply chdir_inr in Back as (Back & _).
  split; [reflexivity|]. split.
  - simpl. now apply (chdir_absolute _ _ _ Back).
  - eauto.
Qed.


Lemma commit_returns_at_root (self : t) (filename target_repo : string)
    (s s' : state W) (b : bool) :
  commit_file_to_github self filename target_repo s = (inr b, s') ->
  os_getcwd (world s') = project_root.
Proof.
  unfold commit_file_to_github, try_except.
  destruct (publish self filename target_repo s) as [[e|b'] s1] eqn:P.
  - rewrite bind_print, bind_eq. unfold chdir, on_world. simpl world.
    destruct (os_chdir project_root (world s1)) as [[e1|[]] w'] eqn:Back;
      [discriminate|].
    intros [= <- <-]. simpl. now apply (chdir_absolute _ _ _ Back).
  - intros [= <- <-]. now apply publish_inr in P as (_ & Cwd & _).
Qed.

(** C9. After every call of [commit_file_to_github] that returns, with
    [True] or with [False], the working directory is
    [/Users/divinejohns/memU], whatever it was before the call, also when
    the call failed before it had changed the directory. *)
Theorem commit_ends_in_project_root (self : t) (filename target_repo : string)
    (s s' : state W) (b : bool) :
  commit_file_to_github self filename target_repo s = (inr b, s') ->
  os_getcwd (world s') = "/Users/divinejohns/memU".
Proof. apply commit_returns_at_root. Qed.

(** The call whose [git push] fails: every step before it went through,
    [git push] raised or exited with another status than 0, and the handler
    goes to the project root and answers [False]. *)
Lemma commit_at_failed_push (self : t) (filename target_repo : string)
    (s : state W) (w5 : W) :
  let push := subprocess_run ["git"; "push"] None w5 in
  staged self filename target_repo (world s) w5 ->
  fails push ->
  fst (commit_file_to_github self filename target_repo s)
  = match fst (os_chdir project_root (snd push)) with
    | inl e => inl e
    | inr _ => inr false
    end
  /\ world (snd (commit_file_to_github self filename target_repo s))
     = snd (os_chdir project_root (snd push)).
Proof.
  intros push (w1 & w2 & w3 & w4 & Clone & Cp & Cd & Add & Commit) F.
  destruct (commit_file_to_github self filename target_repo s)
    as [out s'] eqn:E.
  revert E. unfold commit_file_to_github, try_except, publish.
  rewrite bind_eq. unfold path_exists.
  assert (exists c1,
             (if os_path_exists (clone_dir target_repo) (world s)
              then ret tt
              else
                run_checked ["mkdir"; "-p"; "temp_repos"] ;;;
                run_checked ["gh"; "repo"; "clone";
                             github_org self +:+ "/" +:+ target_repo;
                             clone_dir target_repo] ;;;
                ret tt) s
             = (inr tt, State w1 c1)) as [c1 Step1].
  { destruct (os_path_exists (clone_dir target_repo) (world s)).
    - subst w1. exists (console s). unfold ret. now destruct s.
    - destruct Clone as (wa & Mk & Gh).
      destruct (run_checked_succeeds _ s wa Mk) as [ra Ea].
      rewrite bind_eq, Ea.
      destruct (run_checked_succeeds _ (State wa (console s)) w1 Gh)
        as [rb Eb].
      rewrite bind_eq, Eb. unfold ret. eauto. }
  rewrite bind_eq, Step1.
  destruct (run_checked_succeeds _ (State w1 c1) w2 Cp) as [r3 E3].
  rewrite bind_eq, E3.
  rewrite bind_eq. unfold chdir at 1, on_world. simpl world. rewrite Cd.
  destruct (run_checked_succeeds _ (State w3 c1) w4 Add) as [r5 E5].
  simpl console. rewrite bind_eq, E5.
  destruct (run_checked_succeeds _ (State w4 c1) w5 Commit) as [r6 E6].
  simpl console. rewrite bind_eq, E6.
  destruct (run_checked_fails ["git"; "push"] (State w5 c1) F) as [e E7].
  simpl console. rewrite bind_eq, E7.
  rewrite bind_print, bind_eq. unfold chdir, on_world. simpl world.
  fold push. destruct (os_chdir project_root (snd push)) as [[e1|u] w'];
    intros [= <- <-]; split; reflexivity.
Qed.

(** C3, as amended. For every filename and target repository, a call of
    [commit_file_to_github] that starts in [/Users/divinejohns/memU] and
    returns leaves the working directory at its value from before the call,
    on the success path and on every failure path; and when the [git push]
    of the call fails, that is, [git push] raises or exits with another
    status than 0 in the world [w5] that the steps before it led to, the
    call returns [False], from the world that the change of directory back
    to the project root left after the push. *)
Theorem commit_restores_project_root (self : t)
    (filename target_repo : string) (s s' : state W) (b : bool) :
  os_getcwd (world s) = "/Users/divinejohns/memU" ->
  commit_file_to_github self filename target_repo s = (inr b, s') ->
  os_getcwd (world s') = os_getcwd (world s)
  /\ (forall w5,
        staged self filename target_repo (world s) w5 ->
        fails (subprocess_run ["git"; "push"] None w5) ->
        b = false
        /\ world s'
           = snd (os_chdir project_root
                    (snd (subprocess_run ["git"; "push"] None w5)))).
Proof.
  intros Start E. split.
  - rewrite Start. exact (commit_returns_at_root _ _ _ _ _ _ E).
  - intros w5 St F.
    destruct (commit_at_failed_push self filename target_repo s w5 St F)
      as [Out Wd].
    rewrite E in Out, Wd. simpl fst in Out. simpl snd in Wd.
    split; [|exact Wd].
    destruct (fst (os_chdir project_root _)) as [e|u]; [discriminate|].
    now injection Out.
Qed.

End Publisher.

(** The scripted machine keeps the laws of [Posix]. *)
Lemma machine_posix : Posix Machine.world.
Proof.
  split.
  - intros p w w'. simpl. unfold Machine.machine_chdir.
    destruct (Machine.mem p (Machine.directories w)); [|discriminate].
    intros [= <-] A. simpl. now rewrite A.
  - intros src dst t w r w'. simpl. unfold Machine.machine_run, Machine.cp.
    simpl. destruct (ends_with_slash src || negb (Machine.mem src (Machine.paths w))).
    + intros [= <- <-]. discriminate.
    + intros [= <- <-] _. simpl. now rewrite String.eqb_refl.
  - intros src dst t w r w'. simpl. unfold Machine.machine_run, Machine.cp.
    simpl. intros E S. rewrite S in E. simpl in E.
    injection E as <- <-. discriminate.
Qed.

(** C3 fails as stated: started in [/home/dev/project] with a [git push]
    that is rejected, the call returns [False] and leaves the process in
    [/Users/divinejohns/memU]. *)
Lemma commit_leaves_other_directory :
  exists s',
    SafeCleanupVerifier.commit_file_to_github SafeCleanupVerifier.__init__
      "a.py" "core" (Machine.boot (Machine.checkout "/home/dev/project" false))
    = (inr false, s')
    /\ os_getcwd (Machine.checkout "/home/dev/project" false)
       = "/home/dev/project"
    /\ os_getcwd (world s') = "/Users/divinejohns/memU"
    /\ os_getcwd (world s')
       <> os_getcwd (Machine.checkout "/home/dev/project" false).
Proof.
  eexists. split; [vm_compute; reflexivity|].
  split; [reflexivity|]. split; [reflexivity|]. discriminate.
Qed.

Lemma commit_restores_project_root_witness :
  let s := Machine.boot (Machine.checkout "/Users/divinejohns/memU" false) in
  exists w5 b s',
    staged SafeCleanupVerifier.__init__ "a.py" "core" (world s) w5
    /\ fails (subprocess_run ["git"; "push"] None w5)
    /\ SafeCleanupVerifier.commit_file_to_github SafeCleanupVerifier.__init__
         "a.py" "core" s = (inr b, s')
    /\ os_getcwd (world s) = "/Users/divinejohns/memU"
    /\ os_getcwd (world s') = os_getcwd (world s)
    /\ b = false.
Proof.
  intros s.
  assert (exists w5,
             staged SafeCleanupVerifier.__init__ "a.py" "core" (world s) w5
             /\ fails (subprocess_run ["git"; "push"] None w5))
    as (w5 & St & F).
  { eexists. split.
    - unfold staged. vm_compute. eexists. eexists. eexists. eexists.
      split; [reflexivity|].
      split; [eexists; split; reflexivity|].
      split; [reflexivity|].
      split; [eexists; split; reflexivity|].
      eexists; split; reflexivity.
    - vm_compute. discriminate. }
  destruct (SafeCleanupVerifier.commit_file_to_github
              SafeCleanupVerifier.__init__ "a.py" "core" s)
    as [[e|b] s'] eqn:E; [vm_compute in E; discriminate E|].
  exists w5, b, s'.
  split; [exact St|]. split; [exact F|]. split; [reflexivity|].
  split; [reflexivity|].
  destruct (@commit_restores_project_root Machine.world _ machine_posix _
              SafeCleanupVerifier.__init__ "a.py" "core" s s' b
              eq_refl E) as [Cwd Push].
  split; [exact Cwd|]. exact (proj1 (Push w5 St F)).
Defined.

Lemma commit_ends_in_project_root_witness :
  let s := Machine.boot Machine.quiet in
  exists s',
    SafeCleanupVerifier.commit_file_to_github SafeCleanupVerifier.__init__
      "a.py" "core" s = (inr false, s')
    /\ os_getcwd (world s) = "/home/dev/project"
    /\ os_getcwd (world s') = "/Users/divinejohns/memU".
Proof.
  intros s. eexists. split; [vm_compute; reflexivity|].
  split; [reflexivity|].
  refine (@commit_ends_in_project_root Machine.world _ machine_posix _
            SafeCleanupVerifier.__init__ "a.py" "core" s _ false _).
  vm_compute. reflexivity.
Defined.

(** ** [restore_file_from_backup] *)

Section Restorer.
Context {W : Type} `{Posix W} `{Interp}.
Import SafeCleanupVerifier.

(** One turn of the scan, by what the location is like. *)
Lemma restore_scan_absent (filename location : string)
    (rest : list string) (s : state W) :
  os_path_exists location (world s) = false ->
  restore_scan filename (location :: rest) s = restore_scan filename rest s.
Proof.
  intros E. simpl. rewrite bind_eq. unfold path_exists. now rewrite E.
Qed.

Lemma restore_scan_copied (filename location : string)
    (rest : list string) (s : state W) (r : CompletedProcess) (w' : W) :
  os_path_exists location (world s) = true ->
  subprocess_run ["cp"; location; filename] None (world s) = (inr r, w') ->
  returncode r = 0 ->
  restore_scan filename (location :: rest) s =
  (inr true,
   State w' (console s
             ++ ["✅ Restored " +:+ filename +:+ " from " +:+ location])).
Proof.
  intros E Run Rc. simpl. rewrite bind_eq. unfold path_exists. rewrite E.
  unfold try_except, run_checked, run, on_world. rewrite !bind_eq.
  rewrite Run, Rc. reflexivity.
Qed.

Lemma restore_scan_not_copied (filename location : string)
    (rest : list string) (s : state W) :
  os_path_exists location (world s) = true ->
  fails (subprocess_run ["cp"; location; filename] None (world s)) ->
  restore_scan filename (location :: rest) s =
  restore_scan filename rest
    (State (snd (subprocess_run ["cp"; location; filename] None (world s)))
           (console s)).
Proof.
  intros E F. simpl. rewrite bind_eq. unfold path_exists. rewrite E.
  unfold try_except, run_checked, run, on_world. rewrite !bind_eq.
  unfold fails in F.
  destruct (subprocess_run _ None (world s)) as [[e|r] w']; simpl in *.
  - reflexivity.
  - apply Z.eqb_neq in F. rewrite F. reflexivity.
Qed.

(** After a scan that returns [True] the file is in the working
    directory. *)
Lemma restore_scan_true (filename : string) (locations : list string)
    (s s' : state W) :
  restore_scan filename locations s = (inr true, s') ->
  os_path_exists filename (world s') = true.
Proof.
  revert s. induction locations as [|location rest IH]; intros s.
  - simpl. rewrite bind_print. unfold ret. discriminate.
  - destruct (os_path_exists location (world s)) eqn:E.
    + destruct (subprocess_run ["cp"; location; filename] None (world s))
        as [[e|r] w'] eqn:Run.
      * rewrite restore_scan_not_copied;
          [apply IH | assumption | unfold fails; now rewrite Run].
      * destruct (Z.eq_dec (returncode r) 0) as [Rc|Rc].
        -- erewrite restore_scan_copied by eassumption.
           intros [= <-]. simpl. eapply cp_creates; eassumption.
        -- rewrite restore_scan_not_copied;
             [apply IH | assumption | unfold fails; now rewrite Run].
    + rewrite restore_scan_absent by assumption. apply IH.
Qed.


(** C6, where the code departs from it. The third of the five locations is
    [.git/objects/] for every filename: a directory, which [cp] does not
    copy.  With that location present and nothing in the other four, the
    call returns [False], where the claim has it return true. *)
Theorem third_location_is_not_restored (self : t) (filename : string)
    (s : state W) :
  let w' :=
    snd (subprocess_run ["cp"; ".git/objects/"; filename] None (world s)) in
  os_path_exists ("backups/" +:+ filename) (world s) = false ->
  os_path_exists ("backup/" +:+ filename) (world s) = false ->
  os_path_exists ".git/objects/" (world s) = true ->
  os_path_exists ("__pycache__/" +:+ filename) w' = false ->
  os_path_exists ("temp/" +:+ filename) w' = false ->
  restore_file_from_backup self filename s =
  (inr false,
   State w' (console s ++ ["❌ Could not restore " +:+ filename
                           +:+ " from any backup location"])).
Proof.
  intros w' A1 A2 P3 A4 A5.
  unfold restore_file_from_backup, backup_locations.
  rewrite !restore_scan_absent by assumption.
  rewrite restore_scan_not_copied; [|assumption|].
  - fold w'. rewrite !restore_scan_absent by assumption. reflexivity.
  - unfold fails.
    destruct (subprocess_run _ None (world s)) as [[e|r] w1] eqn:Run;
      [exact I|].
    simpl. eapply cp_omits_directory; [exact Run | reflexivity].
Qed.

(** X2. After a call of [restore_file_from_backup] that returns [True] the
    file is present at the working-directory path. *)
Theorem restore_true_file_present (self : t) (filename : string)
    (s s' : state W) :
  restore_file_from_backup self filename s = (inr true, s') ->
  os_path_exists filename (world s') = true.
Proof. apply restore_scan_true. Qed.



End Restorer.

Lemma third_location_is_not_restored_witness :
  let s := Machine.boot (Machine.with_paths Machine.quiet [".git/objects/"]) in
  SafeCleanupVerifier.restore_file_from_backup SafeCleanupVerifier.__init__
    "notes.txt" s
  = (inr false,
     State (world s)
       ["❌ Could not restore notes.txt from any backup location"]).
Proof.
  intros s.
  refine (@third_location_is_not_restored Machine.world _ machine_posix
            SafeCleanupVerifier.__init__ "notes.txt" s _ _ _ _ _);
    reflexivity.
Defined.

Lemma restore_true_file_present_witness :
  let s :=
    Machine.boot (Machine.with_paths Machine.quiet ["__pycache__/notes.txt"]) in
  exists s',
    SafeCleanupVerifier.restore_file_from_backup SafeCleanupVerifier.__init__
      "notes.txt" s = (inr true, s')
    /\ os_path_exists "notes.txt" (world s) = false
    /\ os_path_exists "notes.txt" (world s') = true.
Proof.
  intros s. eexists. split; [vm_compute; reflexivity|].
  split; [reflexivity|].
  refine (@restore_true_file_present Machine.world _ machine_posix
            SafeCleanupVerifier.__init__ "notes.txt" s _ _).
  vm_compute. reflexivity.
Defined.




(** ** The health-check aggregator *)



Lemma suite_trace_names {W} (tests : list (string * (W -> (exn + bool) * W)))
    (w : W) :
  fst <$> fst (suite_trace tests w) = fst <$> tests.
Proof.
  revert w. induction tests as [|[name probe] tests IH]; intros w.
  - reflexivity.
  - simpl suite_trace. destruct (probe w) as [outcome w1]. specialize (IH w1).
    destruct (suite_trace tests w1) as [tr w2]. simpl fst in *.
    rewrite !fmap_cons. simpl fst. now f_equal.
Qed.

Lemma suite_trace_length {W} (tests : list (string * (W -> (exn + bool) * W)))
    (w : W) :
  length (fst (suite_trace tests w)) = length tests.
Proof.
  rewrite <- (length_fmap fst), suite_trace_names. apply length_fmap.
Qed.

Lemma count_failed_app (t1 t2 : list (string * (exn + bool))) :
  count_failed (t1 ++ t2) = count_failed t1 + count_failed t2.
Proof.
  unfold count_failed. rewrite filter_app, length_app. lia.
Qed.

Lemma count_passed_app (t1 t2 : list (string * (exn + bool))) :
  count_passed (t1 ++ t2) = count_passed t1 + count_passed t2.
Proof.
  unfold count_passed. rewrite filter_app, length_app. lia.
Qed.

Lemma count_passed_failed (trace : list (string * (exn + bool))) :
  count_passed trace + count_failed trace = Z.of_nat (length trace).
Proof.
  unfold count_passed, count_failed.
  induction trace as [|ev trace IH]; [reflexivity|].
  rewrite !filter_cons. simpl length.
  destruct (passed ev); simpl; simpl in IH; lia.
Qed.

Section Tally.
Import OrchestrationSystemTester.

(** The counters after a trace. *)
Lemma tally_counts (trace : list (string * (exn + bool)))
    (acc : t * dict bool) :
  let self := fst (fold_left tally_event trace acc) in
  total_tests self = total_tests (fst acc) + Z.of_nat (length trace)
  /\ passed_tests self = passed_tests (fst acc) + count_passed trace
  /\ failed_tests self = failed_tests (fst acc) + count_failed trace.
Proof.
  revert acc. induction trace as [|ev trace IH]; intros acc.
  - simpl. unfold count_passed, count_failed. simpl. lia.
  - simpl fold_left. specialize (IH (tally_event acc ev)). cbv zeta in *.
    destruct IH as (T & P & F). rewrite T, P, F.
    change (ev :: trace) with ([ev] ++ trace).
    rewrite count_passed_app, count_failed_app.
    unfold tally_event, count_passed, count_failed. rewrite !filter_cons.
    simpl length. destruct (passed ev); simpl; lia.
Qed.


End Tally.

Section Aggregator.
Context {W : Type} `{OS W} `{Interp} `{Binary64}.
Import OrchestrationSystemTester.

(** One probe: whatever its outcome, the counters move on by one event and
    the aggregator prints its two lines. *)
Lemma suite_step_event (name : string) (p : probe (W := W))
    (acc : t * dict bool) (s : state W) :
  suite_step (name, p) acc s =
  (inr (tally_event acc (name, fst (p (world s)))),
   State (snd (p (world s)))
         (console s ++ event_lines (name, fst (p (world s))))).
Proof.
  unfold suite_step, run_test. simpl fst. simpl snd.
  rewrite bind_eq, bind_print. unfold try_except.
  rewrite bind_eq. unfold on_world. simpl world. simpl console.
  destruct (p (world s)) as [[e|[|]] w1]; simpl;
    rewrite <- app_assoc; reflexivity.
Qed.

(** The loop over the suite never raises: it runs every probe, in order,
    each in the world its predecessor left. *)
Lemma suite_loop_trace (tests : list (string * probe)) (acc : t * dict bool)
    (s : state W) :
  let trace := fst (suite_trace tests (world s)) in
  for_each tests suite_step acc s =
  (inr (fold_left tally_event trace acc),
   State (snd (suite_trace tests (world s)))
         (console s ++ concat (event_lines <$> trace))).
Proof.
  revert acc s. induction tests as [|[name p] tests IH]; intros acc s.
  - simpl. unfold ret. rewrite app_nil_r. now destruct s.
  - rewrite for_each_cons, suite_step_event, IH. cbv zeta. simpl world.
    simpl console. simpl suite_trace.
    destruct (p (world s)) as [outcome w1]. simpl fst. simpl snd.
    destruct (suite_trace tests w1) as [trace w2]. simpl fst. simpl snd.
    rewrite fmap_cons. simpl concat. simpl fold_left.
    now rewrite <- !app_assoc.
Qed.

Lemma print_failed_returns (results : dict bool) (s : state W) :
  exists c, print_failed results s = (inr tt, State (world s) c).
Proof.
  unfold print_failed. revert s.
  induction results as [|[name b] results IH]; intros s.
  - exists (console s). now destruct s.
  - rewrite for_each_cons. simpl snd. destruct b.
    + unfold ret. apply IH.
    + unfold print. simpl fst.
      apply (IH (State (world s) (console s ++ ["  - " +:+ name]))).
Qed.

(** What [run_comprehensive_tests] returns: the counters and the report of
    the run, unless the report cannot be written. *)
Lemma run_comprehensive_tests_outcome (tests : list (string * probe))
    (self : t) (s : state W) :
  let w1 := snd (suite_trace tests (world s)) in
  let ran := fold_left tally_event (fst (suite_trace tests (world s)))
               (self, []) in
  let report := test_report (fst ran) (snd ran) (now_isoformat w1) in
  fst (run_comprehensive_tests tests self s) =
  match dump_json "orchestration_test_report.json" (json_of_report report) w1
  with
  | (inl e, _) => inl e
  | (inr _, _) => inr (fst ran, report)
  end.
Proof.
  intros w1 ran report. unfold run_comprehensive_tests, run_suite.
  rewrite !bind_print, bind_eq, suite_loop_trace. cbv zeta. simpl world.
  fold w1 ran. rewrite bind_eq. simpl world. rewrite bind_eq.
  unfold on_world. simpl world.
  change {| timestamp := now_isoformat w1;
            r_total_tests := total_tests (fst ran);
            r_passed_tests := passed_tests (fst ran);
            r_failed_tests := failed_tests (fst ran);
            success_rate :=
              success_rate_of (passed_tests (fst ran)) (total_tests (fst ran));
            r_test_results := snd ran;
            system_status :=
              if failed_tests (fst ran) =? 0
              then "healthy" else "issues_detected" |}
    with report.
  destruct (dump_json _ _ w1) as [[e|u] w2]; [reflexivity|].
  rewrite !bind_print, bind_eq.
  destruct (failed_tests (fst ran) >? 0).
  - rewrite bind_print.
    edestruct print_failed_returns as [c ->]. reflexivity.
  - reflexivity.
Qed.




(** *** The success rate *)

Lemma fl_integer (n : Z) :
  Z.abs n <= 2 ^ 53 -> (fl (inject_Z n) == inject_Z n)%Q.
Proof.
  intros B.
  assert (inject_Z n / inject_Z (2 ^ 0) == inject_Z n)%Q as E
    by (change (inject_Z (2 ^ 0)) with 1%Q; field).
  rewrite <- (fl_proper _ _ E), fl_representable by lia. exact E.
Qed.

Lemma quotient_in_unit_interval (passed total : Z) :
  0 <= passed <= total -> 0 < total ->
  (0 <= inject_Z passed / inject_Z total <= 1)%Q.
Proof.
  intros [P T] Pos.
  assert (0 < inject_Z total)%Q as Qpos
    by (change 0%Q with (inject_Z 0); now rewrite <- Zlt_Qlt).
  split.
  - apply Qle_shift_div_l; [assumption|]. rewrite Qmult_0_l.
    change 0%Q with (inject_Z 0). now rewrite <- Zle_Qle.
  - apply Qle_shift_div_r; [assumption|]. rewrite Qmult_1_l.
    now rewrite <- Zle_Qle.
Qed.

Lemma fl_between (lo hi : Z) (x : Q) :
  Z.abs lo <= 2 ^ 53 -> Z.abs hi <= 2 ^ 53 ->
  (inject_Z lo <= x <= inject_Z hi)%Q ->
  (inject_Z lo <= fl x <= inject_Z hi)%Q.
Proof.
  intros Blo Bhi [L U]. split.
  - rewrite <- (fl_integer lo) by assumption. now apply fl_monotone.
  - rewrite <- (fl_integer hi) by assumption. now apply fl_monotone.
Qed.

Lemma success_rate_of_range (passed total : Z) :
  0 <= passed <= total -> is_percentage (success_rate_of passed total).
Proof.
  intros B. unfold success_rate_of.
  destruct (Z.gtb_spec total 0) as [Pos|Zero]; [|simpl; lia].
  simpl. apply (fl_between 0 100); [simpl; lia | simpl; lia |].
  pose proof (quotient_in_unit_interval passed total B Pos) as U.
  apply (fl_between 0 1) in U; [|simpl; lia | simpl; lia].
  change (inject_Z 0) with 0%Q in *. change (inject_Z 1) with 1%Q in U.
  change (inject_Z 100) with 100%Q.
  destruct U as [U0 U1]. split; lra.
Qed.

Lemma success_rate_three_of_four : is_float (success_rate_of 3 4) 75.
Proof.
  unfold success_rate_of. simpl. eexists. split; [reflexivity|].
  assert (fl (inject_Z 3 / inject_Z 4) == 3 # 4)%Q as Q34.
  { change (inject_Z 4) with (inject_Z (2 ^ 2)).
    rewrite fl_representable by (simpl; lia). reflexivity. }
  assert (fl (inject_Z 3 / inject_Z 4) * 100 == inject_Z 75)%Q as M
    by (rewrite Q34; reflexivity).
  rewrite (fl_proper _ _ M). apply fl_integer. simpl. lia.
Qed.

(** The counters of a run that started from [__init__]. *)
Lemma fresh_run_counts (tests : list (string * probe)) (w : W) :
  let self :=
    fst (fold_left tally_event (fst (suite_trace tests w)) (__init__, [])) in
  0 <= passed_tests self <= total_tests self
  /\ passed_tests self + failed_tests self = total_tests self
  /\ total_tests self = Z.of_nat (length tests).
Proof.
  pose proof (tally_counts (fst (suite_trace tests w)) (__init__, []))
    as (T & P & F).
  pose proof (count_passed_failed (fst (suite_trace tests w))) as S.
  rewrite suite_trace_length in T, S. cbv zeta. simpl fst in T, P, F.
  change (total_tests __init__) with 0 in T.
  change (passed_tests __init__) with 0 in P.
  change (failed_tests __init__) with 0 in F.
  rewrite T, P, F. unfold probe in *.
  assert (0 <= count_passed (fst (suite_trace tests w))) as Pp
    by (unfold count_passed; apply Nat2Z.is_nonneg).
  assert (0 <= count_failed (fst (suite_trace tests w))) as Pf
    by (unfold count_failed; apply Nat2Z.is_nonneg).
  lia.
Qed.

(** C7. For the counts of every run of the aggregator, [success_rate] lies
    between 0 and 100; it is the integer 0, and no division is made, when
    [total_tests = 0]; and for 3 passed probes out of 4 it is the float
    75.0. *)
Theorem success_rate_is_a_percentage (tests : list (string * probe))
    (s s' : state W) (self : t) (r : report) :
  run_comprehensive_tests tests __init__ s = (inr (self, r), s') ->
  success_rate r = success_rate_of (r_passed_tests r) (r_total_tests r)
  /\ 0 <= r_passed_tests r <= r_total_tests r
  /\ is_percentage (success_rate r)
  /\ (r_total_tests r = 0 -> success_rate r = PyInt 0)
  /\ (forall passed total,
        0 <= passed <= total -> is_percentage (success_rate_of passed total))
  /\ (forall passed, success_rate_of passed 0 = PyInt 0)
  /\ is_float (success_rate_of 3 4) 75.
Proof.
  intros E.
  pose proof (run_comprehensive_tests_outcome tests __init__ s) as O.
  cbv zeta in O. rewrite E in O. simpl fst in O.
  destruct (dump_json _ _ _) as [[e|u] w2]; [discriminate|].
  injection O as -> ->.
  pose proof (fresh_run_counts tests (world s)) as (B & _ & _).
  simpl success_rate. simpl r_passed_tests. simpl r_total_tests.
  split; [reflexivity|]. split; [exact B|].
  split; [now apply success_rate_of_range|].
  split; [intros Z0; unfold success_rate_of; now rewrite Z0|].
  split; [apply success_rate_of_range|].
  split; [reflexivity | apply success_rate_three_of_four].
Qed.

End Aggregator.

(** On binary64 floats themselves: 3 of 4 is 75.0 and 11 of 11 is 100.0. *)
Example success_rate_binary64_values :
  OrchestrationSystemTester.success_rate_binary64 3 4 = 75%float
  /\ OrchestrationSystemTester.success_rate_binary64 11 11 = 100%float
  /\ OrchestrationSystemTester.success_rate_binary64 0 11 = 0%float.
Proof. repeat split; reflexivity. Qed.



Lemma success_rate_is_a_percentage_witness :
  let tests :=
    [("a", Machine.passes); ("b", Machine.passes); ("c", Machine.refuses);
     ("d", Machine.passes)] in
  exists self r s',
    OrchestrationSystemTester.run_comprehensive_tests tests
      OrchestrationSystemTester.__init__ (Machine.boot Machine.quiet)
    = (inr (self, r), s')
    /\ OrchestrationSystemTester.r_passed_tests r = 3
    /\ OrchestrationSystemTester.r_total_tests r = 4
    /\ OrchestrationSystemTester.success_rate r = PyFloat (300 # 4)
    /\ is_percentage (OrchestrationSystemTester.success_rate r).
Proof.
  intros tests. eexists. eexists. eexists.
  split; [vm_compute; reflexivity|].
  split; [reflexivity|]. split; [reflexivity|]. split; [reflexivity|].
  refine (proj1 (proj2 (proj2
            (@success_rate_is_a_percentage Machine.world _ _ _ tests
               (Machine.boot Machine.quiet) _ _ _ _)))).
  vm_compute. reflexivity.
Defined.

(** * Further properties *)

(** ** Lists and dictionaries *)

Lemma sublist_same_length {A} (l k : list A) :
  l `sublist_of` k -> length l = length k -> l = k.
Proof.
  induction 1 as [|x l k S IH|x l k S IH]; intros L.
  - reflexivity.
  - f_equal. apply IH. now injection L.
  - apply sublist_length in S. simpl in L. lia.
Qed.

Lemma first_occurrences_all (files : list string) :
  length (first_occurrences files) = length files <-> NoDup files.
Proof.
  split.
  - intros L. rewrite <- (sublist_same_length _ _
                            (first_occurrences_sublist files) L).
    apply first_occurrences_NoDup.
  - intros N. now rewrite first_occurrences_fresh.
Qed.

Lemma dict_get_elem_of {V} (d : dict V) (k : string) (v : V) :
  NoDup (dict_keys d) -> (k, v) ∈ d -> dict_get k d = Some v.
Proof.
  unfold dict_keys. induction d as [|[k' v'] d IH]; intros N E.
  - now apply elem_of_nil in E.
  - simpl in N. apply NoDup_cons in N as [Fresh N].
    apply elem_of_cons in E as [E|E]; simpl.
    + injection E as <- <-. now rewrite String.eqb_refl.
    + destruct (String.eqb_spec k k') as [->|Hne]; [|now apply IH].
      exfalso. apply Fresh.
      change (map fst d) with (fst <$> d).
      now apply (list_elem_of_fmap_2 fst d (k', v)).
Qed.

Lemma elem_of_safe_part (results : dict (bool * string)) (f msg : string) :
  (f, msg) ∈ safe_part results <-> (f, (true, msg)) ∈ results.
Proof.
  unfold safe_part. rewrite list_elem_of_fmap. split.
  - intros ([k [b m]] & [= -> ->] & [B E]%list_elem_of_filter).
    simpl in B. now subst b.
  - intros E. exists (f, (true, msg)). split; [reflexivity|].
    apply list_elem_of_filter. now split.
Qed.

Lemma elem_of_unsafe_part (results : dict (bool * string)) (f msg : string) :
  (f, msg) ∈ unsafe_part results <-> (f, (false, msg)) ∈ results.
Proof.
  unfold unsafe_part. rewrite list_elem_of_fmap. split.
  - intros ([k [b m]] & [= -> ->] & [B E]%list_elem_of_filter).
    simpl in B. destruct b; [now contradiction B | assumption].
  - intros E. exists (f, (false, msg)). split; [reflexivity|].
    apply list_elem_of_filter. split; [discriminate | assumption].
Qed.

(** ** More on [safe_cleanup_with_verification] *)

Section CleanupMore.
Context {W : Type} `{OS W} `{Interp}.
Import SafeCleanupVerifier.

(** The whole run: the queries, then [date], then the log. *)
Lemma safe_cleanup_steps (self : t) (files : list string) (s s' : state W)
    (out : exn + report) :
  safe_cleanup_with_verification self files s = (out, s') ->
  let results := collect self files [] (world s) in
  match subprocess_run ["date"] None (queried self files (world s)) with
  | (inl e, w2) => out = inl e /\ world s' = w2
  | (inr date, w2) =>
      let report := report_of files results (str_strip (stdout date)) in
      match dump_json "cleanup_verification_log.json"
              (json_of_report report) w2 with
      | (inl e, w3) => out = inl e /\ world s' = w3
      | (inr _, w3) => out = inr report /\ world s' = w3
      end
  end.
Proof.
  unfold safe_cleanup_with_verification.
  rewrite !bind_print, bind_eq.
  edestruct (verify_multiple_files_collect (W:=W)) as [c ->]. simpl world.
  rewrite bind_eq. unfold categorize.
  edestruct (categorize_loop (W:=W)) as [c' ->]. simpl world. simpl fst. simpl snd.
  rewrite bind_eq. unfold run, on_world. simpl world.
  destruct (subprocess_run ["date"] None _) as [[e|date] w2].
  { intros [= <- <-]. auto. }
  rewrite bind_eq. simpl world. cbv zeta.
  change {| total_files := len files;
            safe_to_delete := len (safe_part (collect self files [] (world s)));
            unsafe_to_delete :=
              len (unsafe_part (collect self files [] (world s)));
            safe_files := safe_part (collect self files [] (world s));
            unsafe_files := unsafe_part (collect self files [] (world s));
            verification_timestamp := str_strip (stdout date) |}
    with (report_of files (collect self files [] (world s))
            (str_strip (stdout date))).
  destruct (dump_json _ _ w2) as [[e|u] w3].
  - intros [= <- <-]. auto.
  - rewrite !bind_print. unfold ret. intros [= <- <-]. auto.
Qed.

(** X6. The report that [safe_cleanup_with_verification] returns is the
    one it has written: after all the queries it runs [date], then writes
    the returned report to [cleanup_verification_log.json], and the world
    it leaves is the one that this write left. *)
Theorem returned_report_is_logged (self : t) (files : list string)
    (s s' : state W) (r : report) :
  safe_cleanup_with_verification self files s = (inr r, s') ->
  exists date w2,
    subprocess_run ["date"] None (queried self files (world s))
    = (inr date, w2)
    /\ verification_timestamp r = str_strip (stdout date)
    /\ dump_json "cleanup_verification_log.json" (json_of_report r) w2
       = (inr tt, world s').
Proof.
  intros E. apply safe_cleanup_steps in E. cbv zeta in E.
  destruct (subprocess_run ["date"] None _) as [[e|date] w2];
    [now destruct E|].
  destruct (dump_json _ _ w2) as [[e|[]] w3] eqn:D; [now destruct E|].
  destruct E as [[= ->] <-]. exists date, w2.
  split; [reflexivity|]. split; [reflexivity | exact D].
Qed.


(** X8. Fail-closed, at the level of the report: a file is listed as safe
    only if the last query about it succeeded and found it in at least one
    repository, and then its reason lists those repositories; a file listed
    as unsafe is one whose last query found no repository. *)
Theorem safe_only_if_found (self : t) (files : list string)
    (s s' : state W) (r : report) :
  safe_cleanup_with_verification self files s = (inr r, s') ->
  (forall f msg,
      (f, msg) ∈ safe_files r ->
      exists before after names,
        files = before ++ f :: after /\ (f ∉ after)
        /\ reports_repositories
             (fst (query self f (queried self before (world s)))) names
        /\ msg = "Found in repositories: " +:+ String.concat ", " names)
  /\ (forall f msg,
        (f, msg) ∈ unsafe_files r ->
        exists before after,
          files = before ++ f :: after /\ (f ∉ after)
          /\ ~ exists names,
                reports_repositories
                  (fst (query self f (queried self before (world s)))) names).
Proof.
  intros E. destruct (safe_cleanup_report _ _ _ _ _ E) as [stamp ->].
  simpl safe_files. simpl unsafe_files.
  assert (forall f v,
            (f, v) ∈ collect self files [] (world s) ->
            exists before after,
              files = before ++ f :: after /\ (f ∉ after)
              /\ verdict self f (queried self before (world s)) = v) as Last.
  { intros f v In.
    assert (f ∈ files) as Hf.
    { apply first_occurrences_elem_of.
      rewrite <- (collect_first_occurrences self files (world s)).
      unfold dict_keys.
      change (map fst (collect self files [] (world s)))
        with (fst <$> collect self files [] (world s)).
      now apply (list_elem_of_fmap_2 fst _ (f, v)). }
    apply list_elem_of_split_r in Hf as (before & after & -> & Fresh).
    exists before, after. split; [reflexivity|]. split; [assumption|].
    apply dict_get_elem_of in In.
    - rewrite collect_last in In by assumption. now injection In.
    - rewrite collect_first_occurrences. apply first_occurrences_NoDup. }
  split.
  - intros f msg In. apply elem_of_safe_part, Last in In
      as (before & after & -> & Fresh & V).
    unfold verdict in V.
    destruct (proj1 (classify_safe_iff _) (f_equal fst V)) as [names N].
    exists before, after, names.
    split; [reflexivity|]. split; [assumption|]. split; [exact N|].
    rewrite (classify_found _ _ N) in V. now injection V as <-.
  - intros f msg In. apply elem_of_unsafe_part, Last in In
      as (before & after & -> & Fresh & V).
    exists before, after.
    split; [reflexivity|]. split; [assumption|].
    intros N. apply classify_safe_iff in N. unfold verdict in V.
    rewrite V in N. discriminate N.
Qed.

(** X9. For every input list the two counts are the lengths of the two
    buckets and [safe_to_delete + unsafe_to_delete <= total_files]; the sum
    reaches [total_files] exactly when no filename occurs twice in the
    input.  For the empty list all three are 0. *)
Theorem counts_never_exceed_total (self : t) (files : list string)
    (s s' : state W) (r : report) :
  safe_cleanup_with_verification self files s = (inr r, s') ->
  safe_to_delete r = Z.of_nat (length (safe_files r))
  /\ unsafe_to_delete r = Z.of_nat (length (unsafe_files r))
  /\ total_files r = Z.of_nat (length files)
  /\ safe_to_delete r + unsafe_to_delete r <= total_files r
  /\ (safe_to_delete r + unsafe_to_delete r = total_files r <-> NoDup files).
Proof.
  intros E. destruct (safe_cleanup_report _ _ _ _ _ E) as [stamp ->].
  pose proof (report_counts files (collect self files [] (world s)) stamp)
    as C.
  cbv zeta in C. rewrite collect_first_occurrences in C.
  pose proof (sublist_length _ _ (first_occurrences_sublist files)) as L.
  split; [reflexivity|]. split; [reflexivity|]. split; [reflexivity|].
  rewrite C. simpl total_files. unfold len. split; [lia|].
  rewrite <- first_occurrences_all. lia.
Qed.

Lemma queried_app (self : t) (before after : list string) (w : W) :
  queried self (before ++ after) w
  = queried self after (queried self before w).
Proof.
  revert w. induction before as [|f before IH]; intros w; simpl;
    [reflexivity | apply IH].
Qed.

(** X10. [main] raises nothing, writes no report and restores or commits
    nothing: all it does to the world is to put one query for each of its
    two test files and then one for each of the six deleted files, in that
    order. *)
Theorem main_only_queries (s : state W) :
  exists c,
    main s
    = (inr tt,
       State (queried __init__ (test_files ++ deleted_files) (world s)) c).
Proof.
  unfold main. rewrite !bind_print, bind_eq.
  edestruct (verify_multiple_files_collect (W:=W)) as [c ->].
  rewrite bind_print, bind_eq.
  edestruct (verify_multiple_files_collect (W:=W)) as [c' ->].
  simpl world. rewrite queried_app. now exists c'.
Qed.

End CleanupMore.

(** ** [get_repository_contents] *)

Lemma split_lines_cons (s : string) :
  exists line lines, split_lines s = line :: lines.
Proof.
  destruct s as [|c rest]; simpl; [eauto|].
  destruct (Ascii.eqb c "010"); [eauto|].
  destruct (split_lines rest); eauto.
Qed.

Lemma concat_cons_cons (sep x y : string) (l : list string) :
  String.concat sep (x :: y :: l) = x +:+ sep +:+ String.concat sep (y :: l).
Proof. reflexivity. Qed.

Lemma concat_push (sep line : string) (lines : list string) (c : ascii) :
  String.concat sep (String c line :: lines)
  = String c (String.concat sep (line :: lines)).
Proof. destruct lines; reflexivity. Qed.

(** Joining the pieces of [split('\n')] with line feeds gives the string
    back. *)
Lemma split_lines_join (s : string) :
  String.concat newline (split_lines s) = s.
Proof.
  induction s as [|c rest IH]; [reflexivity|]. simpl split_lines.
  destruct (Ascii.eqb_spec c "010") as [->|Hne].
  - destruct (split_lines_cons rest) as (line & lines & E).
    rewrite E in *. rewrite concat_cons_cons, IH. reflexivity.
  - destruct (split_lines_cons rest) as (line & lines & E).
    rewrite E in *. rewrite concat_push, IH. reflexivity.
Qed.

Lemma split_lines_one_line (s : string) : Forall one_line (split_lines s).
Proof.
  induction s as [|c rest IH]; simpl split_lines.
  - repeat constructor. unfold one_line. simpl. apply not_elem_of_nil.
  - destruct (Ascii.eqb_spec c "010") as [->|Hne].
    + constructor; [|exact IH]. unfold one_line. simpl. apply not_elem_of_nil.
    + destruct (split_lines_cons rest) as (line & lines & E).
      rewrite E in *. apply Forall_cons in IH as [L Ls].
      constructor; [|exact Ls]. unfold one_line in *. simpl.
      intros [?|?]%elem_of_cons; congruence.
Qed.

Section Contents.
Context {W : Type} `{OS W} `{Interp}.
Import SafeCleanupVerifier.

(** X11. [get_repository_contents] raises nothing, prints nothing and
    changes the world by its one command only.  It returns the empty list
    unless the command exits with 0 and prints something besides white
    space; then it returns at least one name, the names are the lines of
    the stripped output (joined by line feeds they give it back), and no
    name holds a line feed. *)
Theorem get_repository_contents_lines (self : t) (repo_name : string)
    (s : state W) :
  let listing :=
    subprocess_run
      ["gh"; "api";
       "repos/" +:+ github_org self +:+ "/" +:+ repo_name +:+ "/contents";
       "--jq"; ".[].name"] (Some 15%nat) (world s) in
  exists names,
    get_repository_contents self repo_name s
    = (inr names, State (snd listing) (console s))
    /\ (names <> [] <->
        exists r, fst listing = inr r /\ returncode r = 0
                  /\ str_strip (stdout r) <> "")
    /\ (names <> [] ->
        exists r, fst listing = inr r
                  /\ String.concat newline names = str_strip (stdout r))
    /\ Forall one_line names.
Proof.
  intros listing. unfold get_repository_contents, try_except.
  rewrite bind_eq. unfold run, on_world. fold listing.
  destruct listing as [[e|r] w1]; simpl fst; simpl snd.
  - exists []. unfold ret. split; [reflexivity|].
    split; [split; [congruence | now intros (r & [=] & _)]|].
    split; [congruence | constructor].
  - destruct (Z.eqb_spec (returncode r) 0) as [Rc|Rc].
    + destruct (String.eqb_spec (str_strip (stdout r)) "") as [E|Ne];
        simpl negb; cbv iota; unfold ret.
      * exists []. split; [reflexivity|].
        split; [split; [congruence
                       | intros (r0 & [= <-] & _ & N); contradiction]|].
        split; [congruence | constructor].
      * exists (split_lines (str_strip (stdout r))).
        split; [reflexivity|].
        destruct (split_lines_cons (str_strip (stdout r)))
          as (line & lines & E).
        split; [split; [intros _; now exists r | rewrite E; discriminate]|].
        split; [intros _; exists r; split;
                  [reflexivity | apply split_lines_join]|].
        apply split_lines_one_line.
    + exists []. unfold ret. split; [reflexivity|].
      split; [split; [congruence
                     | intros (r0 & [= <-] & Rc0 & _); contradiction]|].
      split; [congruence | constructor].
Qed.

End Contents.

(** ** More on [commit_file_to_github] *)

Section PublisherMore.
Context {W : Type} `{OS W} `{Interp}.
Import SafeCleanupVerifier.



End PublisherMore.

(** ** The probes *)

Lemma py_nonempty_true (data : json) :
  py_nonempty data = inr true <-> sized_nonempty data.
Proof.
  unfold sized_nonempty. split.
  - destruct data as [| | | |t|l|d]; simpl; try discriminate.
    + intros [= E]. right. right. exists t. split; [reflexivity|].
      intros ->. discriminate E.
    + intros [= E]. left. exists l. split; [reflexivity|].
      intros ->. discriminate E.
    + intros [= E]. right. left. exists d. split; [reflexivity|].
      intros ->. discriminate E.
  - intros [(l & -> & N)|[(d & -> & N)|(t & -> & N)]]; simpl.
    + destruct l; [contradiction | reflexivity].
    + destruct d; [contradiction | reflexivity].
    + destruct (String.eqb_spec t ""); [contradiction | reflexivity].
Qed.

Section ProbeFacts.
Context {W : Type} `{OS W} `{Listing W} `{Interp}.
Import OrchestrationSystemTester.

(** X14. [test_github_connectivity] raises nothing and returns [True]
    exactly when [gh auth status] could be run, within its ten seconds, and
    exited with 0; a passing probe prints nothing. *)
Theorem test_github_connectivity_iff (self : t) (s : state W) :
  let reply :=
    subprocess_run ["gh"; "auth"; "status"] (Some 10%nat) (world s) in
  exists b c,
    test_github_connectivity self s = (inr b, State (snd reply) c)
    /\ (b = true <-> exists r, fst reply = inr r /\ returncode r = 0)
    /\ (b = true -> c = console s).
Proof.
  intros reply. unfold test_github_connectivity, try_except.
  rewrite bind_eq. unfold run, on_world. fold reply.
  destruct reply as [[e|r] w1]; simpl fst; simpl snd.
  - exists false.
    destruct e; rewrite bind_print; unfold ret; eexists;
      (split; [reflexivity|]);
      (split; [split; [discriminate | now intros (r & [=] & _)]
              | discriminate]).
  - destruct (Z.eqb_spec (returncode r) 0) as [Rc|Rc].
    + exists true, (console s). unfold ret. split; [reflexivity|].
      split; [|reflexivity]. split; [intros _; now exists r | reflexivity].
    + exists false. rewrite bind_print. unfold ret. eexists.
      split; [reflexivity|].
      split; [split; [discriminate
                     | intros (r0 & [= <-] & Rc0); contradiction]
             | discriminate].
Qed.

(** X15. [test_repository_verification] raises nothing and returns [True]
    exactly when [gh repo list] exited with 0 and its output parses to a
    value with a positive length: a list, an object or a string that is
    not empty.  Output that does not parse, and output that parses to a
    number, a truth value or [null], give [False]. *)
Theorem test_repository_verification_iff (self : t) (s : state W) :
  let reply :=
    subprocess_run ["gh"; "repo"; "list"; "Worldwidebro"; "--limit"; "10";
                    "--json"; "name"] (Some 30%nat) (world s) in
  exists b c,
    test_repository_verification self s = (inr b, State (snd reply) c)
    /\ (b = true <->
        exists r data,
          fst reply = inr r /\ returncode r = 0
          /\ json_loads (stdout r) = inr data /\ sized_nonempty data).
Proof.
  intros reply. unfold test_repository_verification, try_except.
  rewrite bind_eq. unfold run, on_world. fold reply.
  destruct reply as [[e|r] w1]; simpl fst; simpl snd.
  - exists false.
    destruct e; rewrite bind_print; unfold ret; eexists;
      (split; [reflexivity|]);
      (split; [discriminate | now intros (r & d & [=] & _)]).
  - destruct (Z.eqb_spec (returncode r) 0) as [Rc|Rc].
    + cbv beta iota.
      destruct (json_loads (stdout r)) as [e|data] eqn:J.
      * exists false.
        destruct e; eexists; (split; [reflexivity|]);
          (split; [discriminate
                  | intros (r0 & d & [= <-] & _ & J' & _); congruence]).
      * destruct (py_nonempty data) as [e|b] eqn:N.
        -- exists false.
           destruct e; eexists;
             (split; [unfold bind at 1, lift; rewrite N; reflexivity|]);
             (split; [discriminate
                     | intros (r0 & d & [= <-] & _ & J' & S);
                       rewrite J in J'; injection J' as <-;
                       apply py_nonempty_true in S; congruence]).
        -- exists b, (console s).
           split; [unfold bind at 1, lift; rewrite N; reflexivity|]. split.
           ++ intros ->. exists r, data. repeat split; try assumption.
              now apply py_nonempty_true.
           ++ intros (r0 & d & [= <-] & _ & J' & S).
              rewrite J in J'. injection J' as <-.
              apply py_nonempty_true in S. congruence.
    + exists false. rewrite bind_print. unfold ret. eexists.
      split; [reflexivity|].
      split; [discriminate
             | intros (r0 & d & [= <-] & Rc0 & _); contradiction].
Qed.

(** X16. [test_system_health] raises nothing and returns [True] exactly
    when [df -h .] and then [ping -c 1 github.com] both exited with 0; when
    the disk check fails, [ping] is not run. *)
Theorem test_system_health_iff (self : t) (s : state W) :
  let df := subprocess_run ["df"; "-h"; "."] None (world s) in
  let ping :=
    subprocess_run ["ping"; "-c"; "1"; "github.com"] (Some 5%nat) (snd df) in
  exists b s',
    test_system_health self s = (inr b, s')
    /\ (b = true <-> ~ fails df /\ ~ fails ping)
    /\ (fails df -> world s' = snd df)
    /\ (~ fails df -> world s' = snd ping).
Proof.
  intros df ping. unfold test_system_health, try_except.
  rewrite bind_eq. unfold run at 1, on_world. fold df.
  unfold fails. subst ping.
  destruct df as [[e|r] w1]; simpl fst; simpl snd.
  - exists false. rewrite bind_print. unfold ret. eexists.
    split; [reflexivity|]. split; [|split; [reflexivity | tauto]].
    split; [discriminate | tauto].
  - destruct (Z.eqb_spec (returncode r) 0) as [Rc|Rc]; simpl negb; cbv iota.
    + change (negb true) with false.
      cbv beta iota delta [bind run on_world world console print ret].
      destruct (subprocess_run _ (Some 5%nat) w1) as [[e|r'] w2];
        simpl fst; simpl snd.
      * exists false. eexists.
        split; [reflexivity|]. split; [|split; [tauto | reflexivity]].
        split; [discriminate | tauto].
      * destruct (Z.eqb_spec (returncode r') 0) as [Rc'|Rc'];
          [change (negb true) with false | change (negb false) with true];
          cbv iota.
        -- exists true. eexists. split; [reflexivity|].
           split; [|split; [tauto | reflexivity]].
           split; [intros _; split; tauto | reflexivity].
        -- exists false. eexists.
           split; [reflexivity|]. split; [|split; [tauto | reflexivity]].
           split; [discriminate | tauto].
    + change (negb false) with true. cbv iota.
      exists false. rewrite bind_print. unfold ret. eexists.
      split; [reflexivity|]. split; [|split; [reflexivity | tauto]].
      split; [discriminate | tauto].
Qed.

Lemma missing_loop (files missing : list string) (s : state W) :
  for_each files missing_step missing s
  = (inr (missing
          ++ filter (fun f => os_path_exists f (world s) = false) files),
     s).
Proof.
  revert missing. induction files as [|f files IH]; intros missing.
  - simpl. unfold ret. now rewrite app_nil_r.
  - rewrite for_each_cons. unfold missing_step at 1, path_exists.
    rewrite bind_eq, filter_cons.
    destruct (os_path_exists f (world s)) eqn:E; unfold ret; rewrite IH.
    + reflexivity.
    + now rewrite <- app_assoc.
Qed.

(** X17. [test_file_structure] raises nothing and leaves the world alone;
    it returns [True] exactly when all five essential files exist, and
    otherwise prints the missing ones, in the order of the list. *)
Theorem test_file_structure_iff (self : t) (s : state W) :
  let missing :=
    filter (fun f => os_path_exists f (world s) = false) essential_files in
  exists b,
    test_file_structure self s
    = (inr b,
       State (world s)
         (console s
          ++ (if b : bool then []
              else ["Missing files: " +:+ repr_names missing])))
    /\ (b = true <->
        Forall (fun f => os_path_exists f (world s) = true) essential_files)
    /\ (b = false <-> missing <> []).
Proof.
  intros missing. unfold test_file_structure, try_except.
  rewrite bind_eq, missing_loop. simpl app. fold missing.
  assert (missing = [] <->
          Forall (fun f => os_path_exists f (world s) = true) essential_files)
    as All.
  { unfold missing. rewrite Forall_forall. split.
    - intros E f In. destruct (os_path_exists f (world s)) eqn:Ex;
        [reflexivity|].
      assert (f ∈ filter (fun f => os_path_exists f (world s) = false)
                    essential_files) as M
        by (apply list_elem_of_filter; now split).
      rewrite E in M. now apply elem_of_nil in M.
    - intros A. destruct (filter _ essential_files) as [|f rest] eqn:F;
        [reflexivity|].
      assert (f ∈ f :: rest) as M by apply list_elem_of_here.
      rewrite <- F in M. apply list_elem_of_filter in M as [Ex In].
      rewrite (A f In) in Ex. discriminate. }
  destruct missing as [|f rest] eqn:M.
  - exists true. change (@nil string ++ []) with (@nil string). unfold ret.
    split; [destruct s; simpl; now rewrite app_nil_r|].
    split; [split; [intros _; now apply All | reflexivity]|].
    split; [discriminate | intros N; now contradiction N].
  - exists false. change ([] ++ f :: rest) with (f :: rest).
    cbv beta iota. rewrite bind_print. unfold ret.
    split; [reflexivity|].
    split; [split; [discriminate | intros A; apply All in A; discriminate]|].
    split; [discriminate | reflexivity].
Qed.

(** X18. [test_cursor_rules] raises nothing; it returns [True] exactly when
    [.cursor/rules] exists and listing it gives at least one entry, and it
    does not list a directory that does not exist. *)
Theorem test_cursor_rules_iff (self : t) (s : state W) :
  let present := os_path_exists ".cursor/rules" (world s) in
  let listing := os_listdir ".cursor/rules" (world s) in
  exists b c,
    test_cursor_rules self s
    = (inr b, State (if present then snd listing else world s) c)
    /\ (b = true <->
        present = true
        /\ exists files, fst listing = inr files /\ files <> []).
Proof.
  intros present listing. unfold test_cursor_rules, try_except.
  rewrite bind_eq. unfold path_exists. fold present.
  destruct present.
  - rewrite bind_eq. unfold listdir, on_world. fold listing.
    destruct listing as [[e|files] w1]; simpl fst; simpl snd.
    + exists false. rewrite bind_print. unfold ret. eexists.
      split; [reflexivity|].
      split; [discriminate | now intros (_ & f & [=] & _)].
    + unfold ret. eexists. exists (console s). split; [reflexivity|].
      destruct files as [|f files]; simpl.
      * split; [discriminate | intros (_ & f & [= <-] & N); contradiction].
      * split; [intros _; split; [reflexivity|]; now exists (f :: files)
               | reflexivity].
  - exists false. rewrite bind_print. unfold ret. eexists.
    split; [reflexivity|]. destruct s. simpl.
    split; [discriminate | now intros [[=] _]].
Qed.

End ProbeFacts.

(** ** More on the aggregator *)

Lemma count_failed_zero (trace : list (string * (exn + bool))) :
  count_failed trace = 0 <-> Forall (fun ev => passed ev = true) trace.
Proof.
  unfold count_failed. induction trace as [|ev trace IH].
  - split; [constructor | reflexivity].
  - rewrite filter_cons, Forall_cons. destruct (passed ev) eqn:P; simpl.
    + rewrite IH. tauto.
    + split; [lia | intros [[=] _]].
Qed.

Lemma dict_set_fresh {V} (d : dict V) (k : string) (v : V) :
  k ∉ dict_keys d -> dict_set k v d = d ++ [(k, v)].
Proof.
  unfold dict_keys. induction d as [|[k' v'] d IH]; intros N; simpl.
  - reflexivity.
  - simpl in N. apply not_elem_of_cons in N as [Hne N].
    destruct (String.eqb_spec k k'); [contradiction|]. now rewrite IH.
Qed.

Lemma tally_results_distinct (trace : list (string * (exn + bool)))
    (acc : OrchestrationSystemTester.t * dict bool) :
  NoDup (dict_keys (snd acc) ++ (fst <$> trace)) ->
  snd (fold_left tally_event trace acc)
  = snd acc ++ ((fun ev => (fst ev, passed ev)) <$> trace).
Proof.
  revert acc. induction trace as [|ev trace IH]; intros acc N.
  - simpl. now rewrite app_nil_r.
  - simpl fold_left. rewrite fmap_cons in N.
    assert (fst ev ∉ dict_keys (snd acc)) as Fresh.
    { apply NoDup_app in N as (_ & N & _). intros In. apply (N _ In).
      apply list_elem_of_here. }
    rewrite IH; unfold tally_event; simpl snd;
      rewrite dict_set_fresh by assumption.
    + rewrite fmap_cons, <- app_assoc. reflexivity.
    + unfold dict_keys. rewrite map_app. simpl map.
      rewrite <- app_assoc. exact N.
Qed.

(** The eleven names of the source's suite are distinct. *)
Lemma suite_names_distinct : NoDup OrchestrationSystemTester.suite_names.
Proof. apply (bool_decide_unpack _). vm_compute. exact I. Qed.

Section AggregatorMore.
Context {W : Type} `{OS W} `{Interp} `{Binary64}.
Import OrchestrationSystemTester.

(** The whole run: the suite, then the report written. *)
Lemma run_comprehensive_tests_steps (tests : list (string * probe))
    (self : t) (s s' : state W) (out : exn + t * report) :
  run_comprehensive_tests tests self s = (out, s') ->
  let w1 := snd (suite_trace tests (world s)) in
  let ran := fold_left tally_event (fst (suite_trace tests (world s)))
               (self, []) in
  let report := test_report (fst ran) (snd ran) (now_isoformat w1) in
  match dump_json "orchestration_test_report.json" (json_of_report report) w1
  with
  | (inl e, w2) => out = inl e /\ world s' = w2
  | (inr _, w2) => out = inr (fst ran, report) /\ world s' = w2
  end.
Proof.
  intros E w1 ran report. revert E. unfold run_comprehensive_tests, run_suite.
  rewrite !bind_print, bind_eq, suite_loop_trace. cbv zeta. simpl world.
  fold w1 ran. rewrite bind_eq. simpl world. rewrite bind_eq.
  unfold on_world. simpl world.
  change {| timestamp := now_isoformat w1;
            r_total_tests := total_tests (fst ran);
            r_passed_tests := passed_tests (fst ran);
            r_failed_tests := failed_tests (fst ran);
            success_rate :=
              success_rate_of (passed_tests (fst ran)) (total_tests (fst ran));
            r_test_results := snd ran;
            system_status :=
              if failed_tests (fst ran) =? 0
              then "healthy" else "issues_detected" |}
    with report.
  destruct (dump_json _ _ w1) as [[e|u] w2].
  { intros [= <- <-]. auto. }
  rewrite !bind_print, bind_eq.
  destruct (failed_tests (fst ran) >? 0).
  - rewrite bind_print.
    edestruct (print_failed_returns (W:=W)) as [c ->].
    rewrite bind_print. unfold ret. intros [= <- <-]. auto.
  - unfold ret at 1. rewrite bind_print. unfold ret. intros [= <- <-]. auto.
Qed.

(** X19. In every report of a run from a fresh tester, [system_status] is
    "healthy" exactly when every probe of the suite returned a true value,
    and "issues_detected" otherwise; [passed_tests + failed_tests =
    total_tests], and [failed_tests] counts the probes that returned a
    false value or raised. *)
Theorem status_healthy_iff_all_passed (tests : list (string * probe))
    (s s' : state W) (self : t) (r : report) :
  run_comprehensive_tests tests __init__ s = (inr (self, r), s') ->
  let trace := fst (suite_trace tests (world s)) in
  (system_status r = "healthy" <-> Forall (fun ev => passed ev = true) trace)
  /\ (system_status r = "issues_detected"
      <-> ~ Forall (fun ev => passed ev = true) trace)
  /\ r_failed_tests r = count_failed trace
  /\ r_passed_tests r + r_failed_tests r = r_total_tests r.
Proof.
  intros E trace. apply run_comprehensive_tests_steps in E. cbv zeta in E.
  destruct (dump_json _ _ _) as [[e|u] w2]; [now destruct E|].
  destruct E as [[= -> ->] _].
  pose proof (tally_counts trace (__init__, [])) as (T & P & F).
  pose proof (count_passed_failed trace) as S.
  fold trace. simpl r_failed_tests. simpl r_passed_tests.
  simpl r_total_tests. simpl system_status.
  simpl fst in T, P, F.
  change (total_tests __init__) with 0 in T.
  change (passed_tests __init__) with 0 in P.
  change (failed_tests __init__) with 0 in F.
  rewrite <- count_failed_zero.
  destruct (Z.eqb_spec (failed_tests (fst (fold_left tally_event trace
                                             (__init__, [])))) 0) as [Z0|Nz].
  - split; [split; [lia | reflexivity]|].
    split; [split; [discriminate | lia]|]. lia.
  - split; [split; [discriminate | lia]|].
    split; [split; [lia | reflexivity]|]. lia.
Qed.

(** X20. When the names of the suite are distinct, as the eleven names of
    the source are, [test_results] in the report lists every probe once, in
    the order of the suite, with [True] for a probe that returned a true
    value and [False] for one that returned a false value or raised. *)
Theorem test_results_record_outcomes (tests : list (string * probe))
    (s s' : state W) (self : t) (r : report) :
  NoDup (fst <$> tests) ->
  run_comprehensive_tests tests __init__ s = (inr (self, r), s') ->
  r_test_results r
  = (fun ev => (fst ev, passed ev)) <$> fst (suite_trace tests (world s))
  /\ dict_keys (r_test_results r) = fst <$> tests.
Proof.
  intros N E. apply run_comprehensive_tests_steps in E. cbv zeta in E.
  destruct (dump_json _ _ _) as [[e|u] w2]; [now destruct E|].
  destruct E as [[= -> ->] _]. simpl r_test_results.
  rewrite tally_results_distinct
    by (simpl; unfold probe in *; now rewrite suite_trace_names).
  simpl app. split; [reflexivity|].
  unfold dict_keys.
  change (map fst ((fun ev => (fst ev, passed ev))
                     <$> fst (suite_trace tests (world s))))
    with (fst <$> ((fun ev : string * (exn + bool) => (fst ev, passed ev))
                     <$> fst (suite_trace tests (world s)))).
  rewrite <- list_fmap_compose. unfold probe in *.
  rewrite <- (suite_trace_names tests (world s)).
  now apply list_fmap_ext.
Qed.

(** X21. The counters are never reset: a run on a tester that has run
    before adds to its counts, so that the report of the second run gives
    [total_tests] as the number of probes of both runs, and likewise the
    passed and failed ones. *)
Theorem counters_accumulate (tests : list (string * probe)) (self : t)
    (s s' : state W) (self' : t) (r : report) :
  run_comprehensive_tests tests self s = (inr (self', r), s') ->
  let trace := fst (suite_trace tests (world s)) in
  r_total_tests r = total_tests self + Z.of_nat (length tests)
  /\ r_passed_tests r = passed_tests self + count_passed trace
  /\ r_failed_tests r = failed_tests self + count_failed trace
  /\ total_tests self' = r_total_tests r
  /\ passed_tests self' = r_passed_tests r
  /\ failed_tests self' = r_failed_tests r.
Proof.
  intros E trace. apply run_comprehensive_tests_steps in E. cbv zeta in E.
  destruct (dump_json _ _ _) as [[e|u] w2]; [now destruct E|].
  destruct E as [[= -> ->] _].
  pose proof (tally_counts trace (self, [])) as (T & P & F).
  simpl fst in T, P, F. unfold trace in T. unfold probe in *.
  rewrite suite_trace_length in T. fold trace in T.
  simpl r_total_tests. simpl r_passed_tests. simpl r_failed_tests.
  fold trace. repeat split; solve [assumption | reflexivity].
Qed.


(** X23. The report that [run_comprehensive_tests] returns is the one it
    has written: once every probe has run it writes the returned report,
    stamped with the time of that moment, to
    [orchestration_test_report.json], and the world it leaves is the one
    that this write left. *)
Theorem returned_test_report_is_written (tests : list (string * probe))
    (self : t) (s s' : state W) (self' : t) (r : report) :
  run_comprehensive_tests tests self s = (inr (self', r), s') ->
  let w1 := snd (suite_trace tests (world s)) in
  timestamp r = now_isoformat w1
  /\ dump_json "orchestration_test_report.json" (json_of_report r) w1
     = (inr tt, world s').
Proof.
  intros E w1. apply run_comprehensive_tests_steps in E. cbv zeta in E.
  fold w1 in E.
  destruct (dump_json _ _ w1) as [[e|[]] w2] eqn:D; [now destruct E|].
  destruct E as [[= -> ->] <-]. split; [reflexivity | exact D].
Qed.

End AggregatorMore.

(** ** The scripted machine on the further properties *)

Lemma returned_report_is_logged_witness :
  let files := ["README.md"; "ghost_file_12345.py"] in
  let s := Machine.searching [Machine.hit; Machine.no_hit] in
  exists r s',
    SafeCleanupVerifier.safe_cleanup_with_verification
      SafeCleanupVerifier.__init__ files s = (inr r, s')
    /\ Machine.written (world s')
       = [("cleanup_verification_log.json",
           SafeCleanupVerifier.json_of_report r)]
    /\ exists date w2,
         subprocess_run ["date"] None
           (queried SafeCleanupVerifier.__init__ files (world s))
         = (inr date, w2)
         /\ SafeCleanupVerifier.verification_timestamp r
            = str_strip (stdout date)
         /\ dump_json "cleanup_verification_log.json"
              (SafeCleanupVerifier.json_of_report r) w2
            = (inr tt, world s').
Proof.
  intros files s. eexists. eexists. split; [vm_compute; reflexivity|].
  split; [reflexivity|].
  refine (returned_report_is_logged SafeCleanupVerifier.__init__ files s
            _ _ _).
  vm_compute. reflexivity.
Defined.


Lemma safe_only_if_found_witness :
  let files := ["README.md"; "ghost_file_12345.py"] in
  let s := Machine.searching [Machine.hit; Machine.no_hit] in
  exists before after names,
    files = before ++ "README.md" :: after /\ ("README.md" ∉ after)
    /\ reports_repositories
         (fst (query SafeCleanupVerifier.__init__ "README.md"
                 (queried SafeCleanupVerifier.__init__ before (world s))))
         names
    /\ "Found in repositories: core"
       = "Found in repositories: " +:+ String.concat ", " names.
Proof.
  intros files s.
  refine (proj1 (safe_only_if_found SafeCleanupVerifier.__init__ files s
                   _ _ _) "README.md" "Found in repositories: core" _).
  - vm_compute. reflexivity.
  - simpl. apply list_elem_of_here.
Defined.

Lemma counts_never_exceed_total_witness :
  exists r s',
    SafeCleanupVerifier.safe_cleanup_with_verification
      SafeCleanupVerifier.__init__ ["a.py"; "a.py"]
      (Machine.searching [Machine.no_hit; Machine.no_hit])
    = (inr r, s')
    /\ SafeCleanupVerifier.safe_to_delete r
       + SafeCleanupVerifier.unsafe_to_delete r = 1
    /\ SafeCleanupVerifier.safe_to_delete r
       + SafeCleanupVerifier.unsafe_to_delete r
       <= SafeCleanupVerifier.total_files r.
Proof.
  eexists. eexists. split; [vm_compute; reflexivity|].
  split; [reflexivity|].
  refine (proj1 (proj2 (proj2 (proj2
            (counts_never_exceed_total SafeCleanupVerifier.__init__
               ["a.py"; "a.py"]
               (Machine.searching [Machine.no_hit; Machine.no_hit])
               _ _ _))))).
  vm_compute. reflexivity.
Defined.


Lemma status_healthy_iff_all_passed_witness :
  let tests := [("a", Machine.passes); ("b", Machine.refuses)] in
  exists self r s',
    OrchestrationSystemTester.run_comprehensive_tests tests
      OrchestrationSystemTester.__init__ (Machine.boot Machine.quiet)
    = (inr (self, r), s')
    /\ OrchestrationSystemTester.system_status r = "issues_detected"
    /\ (OrchestrationSystemTester.system_status r = "healthy"
        <-> Forall (fun ev => passed ev = true)
              (fst (suite_trace tests Machine.quiet))).
Proof.
  intros tests. eexists. eexists. eexists.
  split; [vm_compute; reflexivity|]. split; [reflexivity|].
  refine (proj1 (@status_healthy_iff_all_passed Machine.world _ _ _ tests
                   (Machine.boot Machine.quiet) _ _ _ _)).
  vm_compute. reflexivity.
Defined.

Lemma test_results_record_outcomes_witness :
  let tests :=
    [("a", Machine.passes); ("b", Machine.crashes); ("c", Machine.refuses)] in
  exists self r s',
    OrchestrationSystemTester.run_comprehensive_tests tests
      OrchestrationSystemTester.__init__ (Machine.boot Machine.quiet)
    = (inr (self, r), s')
    /\ OrchestrationSystemTester.r_test_results r
       = [("a", true); ("b", false); ("c", false)]
    /\ dict_keys (OrchestrationSystemTester.r_test_results r)
       = fst <$> tests.
Proof.
  intros tests. eexists. eexists. eexists.
  split; [vm_compute; reflexivity|]. split; [reflexivity|].
  refine (proj2 (@test_results_record_outcomes Machine.world _ _ _ tests
                   (Machine.boot Machine.quiet) _ _ _ _ _)).
  - apply (bool_decide_unpack _). vm_compute. exact I.
  - vm_compute. reflexivity.
Defined.

Lemma counters_accumulate_witness :
  let tests := [("a", Machine.passes); ("b", Machine.refuses)] in
  let used :=
    {| OrchestrationSystemTester.test_results := [];
       OrchestrationSystemTester.total_tests := 2;
       OrchestrationSystemTester.passed_tests := 1;
       OrchestrationSystemTester.failed_tests := 1 |} in
  exists self r s',
    OrchestrationSystemTester.run_comprehensive_tests tests used
      (Machine.boot Machine.quiet)
    = (inr (self, r), s')
    /\ OrchestrationSystemTester.r_total_tests r = 4
    /\ OrchestrationSystemTester.r_total_tests r
       = OrchestrationSystemTester.total_tests used
         + Z.of_nat (length tests).
Proof.
  intros tests used. eexists. eexists. eexists.
  split; [vm_compute; reflexivity|]. split; [reflexivity|].
  refine (proj1 (@counters_accumulate Machine.world _ _ _ tests used
                   (Machine.boot Machine.quiet) _ _ _ _)).
  vm_compute. reflexivity.
Defined.


Lemma returned_test_report_is_written_witness :
  let tests := [("a", Machine.passes); ("b", Machine.refuses)] in
  exists self r s',
    OrchestrationSystemTester.run_comprehensive_tests tests
      OrchestrationSystemTester.__init__ (Machine.boot Machine.quiet)
    = (inr (self, r), s')
    /\ dump_json "orchestration_test_report.json"
         (OrchestrationSystemTester.json_of_report r)
         (snd (suite_trace tests Machine.quiet))
       = (inr tt, world s').
Proof.
  intros tests. eexists. eexists. eexists.
  split; [vm_compute; reflexivity|].
  refine (proj2 (@returned_test_report_is_written Machine.world _ _ _ tests
                   OrchestrationSystemTester.__init__
                   (Machine.boot Machine.quiet) _ _ _ _)).
  vm_compute. reflexivity.
Defined.
